(** * Fitness tracker: the in-memory record store, the streak engine and
      the dashboard statistics

    A shallow embedding of [server/storage.ts] (class [MemStorage]),
    of the route handlers of [server/routes.ts] that orchestrate it, and of
    the record types of [shared/schema.ts].

    Conventions.
    - A JavaScript [Date] is the integer returned by [getTime()]:
      milliseconds since the epoch, a [Z].
    - [new Date()] and [randomUUID()] read the environment; every operation
      that calls them takes the value read as an argument.
    - Local time follows ECMAScript: the server's time zone gives the offset
      of local time at every instant and the offset used to read a local
      time back as an instant, so daylight-saving transitions are part of
      the model; [setHours(0,0,0,0)] and [setDate] are written out on it.
    - A PostgreSQL [real] column is a JavaScript number: an IEEE 754 binary64
      value, here a primitive [float].  [integer] columns are [Z].
    - A nullable column is an [option]; [null] and [undefined] are both
      [None].
    - [Map<string, V>] iterates in insertion order, so it is an association
      list; [Array.prototype.sort] is stable. *)

From Stdlib Require Import ZArith List String Bool Lia Floats.
From Stdlib Require Import Sorting.Sorted Sorting.Permutation.
Import ListNotations.

Open Scope Z_scope.

(* ------------------------------------------------------------------ *)
(** ** JavaScript built-ins used by the server *)

Module JS.

(** [Map.prototype]: keys are strings, iteration follows insertion order,
    and [set] on a key that is present keeps the key's position. *)
Section MAP.
Context {V : Type}.

Definition Map := list (string * V).

Definition empty : Map := [].

Fixpoint get (k : string) (m : Map) : option V :=
  match m with
  | [] => None
  | (k', v) :: m' => if String.eqb k k' then Some v else get k m'
  end.

Fixpoint set (k : string) (v : V) (m : Map) : Map :=
  match m with
  | [] => [(k, v)]
  | (k', v') :: m' =>
      if String.eqb k k' then (k, v) :: m' else (k', v') :: set k v m'
  end.

(** [delete] returns whether the key was present. *)
Fixpoint delete (k : string) (m : Map) : bool * Map :=
  match m with
  | [] => (false, [])
  | (k', v') :: m' =>
      if String.eqb k k' then (true, m')
      else let (b, r) := delete k m' in (b, (k', v') :: r)
  end.

(** [Array.from(m.values())] *)
Definition values (m : Map) : list V := map snd m.
End MAP.
Arguments Map : clear implicits.

(** [Array.prototype.sort(cmp)]: a stable sort; [cmp a b > 0] puts [b]
    before [a], anything else keeps [a] before [b]. *)
Section SORT.
Context {A : Type} (cmp : A -> A -> Z).

Fixpoint insert (x : A) (l : list A) : list A :=
  match l with
  | [] => [x]
  | y :: l' => if cmp x y <=? 0 then x :: l else y :: insert x l'
  end.

Definition sort (l : list A) : list A := fold_right insert [] l.
End SORT.

(** [arr[i]] with [undefined] out of range. *)
Definition index {A : Type} (l : list A) (i : Z) : option A :=
  if i <? 0 then None else nth_error l (Z.to_nat i).

(** [x || 0] on a nullable integer. *)
Definition orZero (x : option Z) : Z :=
  match x with Some v => v | None => 0 end.

Open Scope float_scope.

(** Truthiness of a nullable number: [null], [0], [-0] and [NaN] are
    falsy. *)
Definition truthy (x : option float) : bool :=
  match x with
  | Some f => negb (f =? 0) && negb (is_nan f)
  | None => false
  end.

(** [x || y] on nullable numbers. *)
Definition or (x y : option float) : option float :=
  if truthy x then x else y.

Definition two52 : float := 4503599627370496.

(** [Math.floor] *)
Definition Math_floor (x : float) : float :=
  if (x <? two52) && (- two52 <? x) then
    if x =? 0 then x
    else
      let r := if 0 <? x then (x + two52) - two52 else (x - two52) + two52 in
      if x <? r then r - 1 else r
  else x.

(** [Math.round]: the nearest integer, a tie going towards +infinity;
    the sign of a zero result is the sign of the argument. *)
Definition Math_round (x : float) : float :=
  if (x <? two52) && (- two52 <? x) then
    let f := Math_floor x in
    let r := if 0.5 <=? x - f then f + 1 else f in
    if (r =? 0) && ((x <? 0) || (1 / x <? 0)) then - 0 else r
  else x.

Close Scope float_scope.
End JS.

(* ------------------------------------------------------------------ *)
(** ** Local time *)

Module TimeZone.

(** The host's time zone as ECMAScript sees it.  [offsetAt t] is
    [LocalTZA(t, true)]: the offset of local time from UTC, in
    milliseconds, at the instant [t].  [offsetOfLocal l] is
    [LocalTZA(l, false)]: the offset with which the local time value [l] is
    read back as an instant (for a local time that a transition skips or
    repeats, the offset in force before the transition). *)
Record t := mk {
  offsetAt : Z -> Z;
  offsetOfLocal : Z -> Z
}.

(** The language's [msPerDay]. *)
Definition msPerDay : Z := 86400000.

(** [LocalTime(t)] *)
Definition localTime (tz : t) (d : Z) : Z := d + offsetAt tz d.

(** [UTC(t)] *)
Definition toUTC (tz : t) (l : Z) : Z := l - offsetOfLocal tz l.

(** [d.setHours(0, 0, 0, 0); d.getTime()]: the local day of [d] at time
    of day zero, read back as an instant. *)
Definition setHours0 (tz : t) (d : Z) : Z :=
  toUTC tz (localTime tz d / msPerDay * msPerDay).

(** [d.setDate(d.getDate() + n); d.getTime()]: the local time of [d] moved
    by [n] calendar days, time of day kept, read back as an instant. *)
Definition addDate (tz : t) (d : Z) (n : Z) : Z :=
  toUTC tz (localTime tz d + n * msPerDay).

(** A zone with one offset all year. *)
Definition fixed (offset : Z) : t := mk (fun _ => offset) (fun _ => offset).

Definition utc : t := fixed 0.

End TimeZone.

(* ------------------------------------------------------------------ *)
(** ** Record types ([shared/schema.ts]) *)

Module User.
Record t := mk {
  id : string;
  username : string;
  email : string;
  firstName : string;
  lastName : string;
  password : string;
  fitnessGoals : option (list string);
  currentWeight : option float;
  targetWeight : option float;
  workoutFrequency : option Z;
  currentStreak : option Z;
  longestStreak : option Z;
  createdAt : option Z
}.
End User.

(** [InsertUser]: [User] without [id], [currentStreak], [longestStreak]
    and [createdAt]. *)
Module InsertUser.
Record t := mk {
  username : string;
  email : string;
  firstName : string;
  lastName : string;
  password : string;
  fitnessGoals : option (list string);
  currentWeight : option float;
  targetWeight : option float;
  workoutFrequency : option Z
}.
End InsertUser.

(** [Partial<User>]: a field is [None] when the property is absent. *)
Module PartialUser.
Record t := mk {
  id : option string;
  username : option string;
  email : option string;
  firstName : option string;
  lastName : option string;
  password : option string;
  fitnessGoals : option (option (list string));
  currentWeight : option (option float);
  targetWeight : option (option float);
  workoutFrequency : option (option Z);
  currentStreak : option (option Z);
  longestStreak : option (option Z);
  createdAt : option (option Z)
}.

Definition none : t :=
  mk None None None None None None None None None None None None None.
End PartialUser.

Module Workout.
Record t := mk {
  id : string;
  userId : string;
  name : string;
  type : string;
  duration : Z;
  exercises : string;
  notes : option string;
  createdAt : Z  (* [MemStorage] always stores [new Date()] here *)
}.
End Workout.

Module InsertWorkout.
Record t := mk {
  userId : string;
  name : string;
  type : string;
  duration : Z;
  exercises : string;
  notes : option string
}.
End InsertWorkout.

Module HealthMetrics.
Record t := mk {
  id : string;
  userId : string;
  weight : option float;
  sleepHours : option float;
  sleepQuality : option string;
  waterIntake : option Z;
  notes : option string;
  createdAt : Z
}.
End HealthMetrics.

Module InsertHealthMetrics.
Record t := mk {
  userId : string;
  weight : option float;
  sleepHours : option float;
  sleepQuality : option string;
  waterIntake : option Z;
  notes : option string
}.
End InsertHealthMetrics.

Module ScheduledWorkout.
Record t := mk {
  id : string;
  userId : string;
  name : string;
  type : string;
  scheduledDate : Z;
  duration : Z;
  completed : option Z;
  createdAt : Z
}.
End ScheduledWorkout.

Module InsertScheduledWorkout.
Record t := mk {
  userId : string;
  name : string;
  type : string;
  scheduledDate : Z;
  duration : Z
}.
End InsertScheduledWorkout.

(** [Partial<Workout>] *)
Module PartialWorkout.
Record t := mk {
  id : option string;
  userId : option string;
  name : option string;
  type : option string;
  duration : option Z;
  exercises : option string;
  notes : option (option string);
  createdAt : option Z
}.

Definition none : t := mk None None None None None None None None.
End PartialWorkout.

(** [Partial<ScheduledWorkout>] *)
Module PartialScheduledWorkout.
Record t := mk {
  id : option string;
  userId : option string;
  name : option string;
  type : option string;
  scheduledDate : option Z;
  duration : option Z;
  completed : option (option Z);
  createdAt : option Z
}.

Definition none : t := mk None None None None None None None None.
End PartialScheduledWorkout.

(* ------------------------------------------------------------------ *)
(** ** The record store ([server/storage.ts], class [MemStorage]) *)

Module MemStorage.

(** The four private maps of the class (the session store is not part of
    the activity ledger). *)
Record t := mk {
  users : JS.Map User.t;
  workouts : JS.Map Workout.t;
  healthMetrics : JS.Map HealthMetrics.t;
  scheduledWorkouts : JS.Map ScheduledWorkout.t
}.

(** [constructor()] *)
Definition new : t := mk JS.empty JS.empty JS.empty JS.empty.

(** Methods run in a state monad over the store. *)
Definition M (A : Type) : Type := t -> A * t.

Definition ret {A} (a : A) : M A := fun s => (a, s).

Definition bind {A B} (m : M A) (k : A -> M B) : M B :=
  fun s => let (a, s') := m s in k a s'.

Definition gets {A} (f : t -> A) : M A := fun s => (f s, s).

Definition modify (f : t -> t) : M unit := fun s => (tt, f s).

Declare Scope store_scope.
Delimit Scope store_scope with store.
Notation "x <- m ;; k" := (bind m (fun x => k))
  (at level 61, m at next level, right associativity) : store_scope.
Notation "m ;;; k" := (bind m (fun _ => k))
  (at level 61, right associativity) : store_scope.
Local Open Scope store_scope.

Definition set_users (f : JS.Map User.t -> JS.Map User.t) (s : t) : t :=
  mk (f (users s)) (workouts s) (healthMetrics s) (scheduledWorkouts s).

Definition set_workouts
    (f : JS.Map Workout.t -> JS.Map Workout.t) (s : t) : t :=
  mk (users s) (f (workouts s)) (healthMetrics s) (scheduledWorkouts s).

Definition set_healthMetrics
    (f : JS.Map HealthMetrics.t -> JS.Map HealthMetrics.t) (s : t) : t :=
  mk (users s) (workouts s) (f (healthMetrics s)) (scheduledWorkouts s).

Definition set_scheduledWorkouts
    (f : JS.Map ScheduledWorkout.t -> JS.Map ScheduledWorkout.t)
    (s : t) : t :=
  mk (users s) (workouts s) (healthMetrics s) (f (scheduledWorkouts s)).

(** *** User methods *)

Definition getUser (id : string) : M (option User.t) :=
  gets (fun s => JS.get id (users s)).

(** [{ ...insertUser, id, currentStreak: 0, longestStreak: 0,
      createdAt: new Date() }] *)
Definition createUser (id : string) (now : Z) (insertUser : InsertUser.t)
  : M User.t :=
  let user :=
    User.mk id
      (InsertUser.username insertUser) (InsertUser.email insertUser)
      (InsertUser.firstName insertUser) (InsertUser.lastName insertUser)
      (InsertUser.password insertUser) (InsertUser.fitnessGoals insertUser)
      (InsertUser.currentWeight insertUser)
      (InsertUser.targetWeight insertUser)
      (InsertUser.workoutFrequency insertUser)
      (Some 0) (Some 0) (Some now) in
  modify (set_users (JS.set id user)) ;;;
  ret user.

(** One property of [{ ...user, ...updates }]. *)
Definition spread {A} (old : A) (upd : option A) : A :=
  match upd with Some v => v | None => old end.

(** [{ ...user, ...updates }] *)
Definition merge (user : User.t) (updates : PartialUser.t) : User.t :=
  User.mk
    (spread (User.id user) (PartialUser.id updates))
    (spread (User.username user) (PartialUser.username updates))
    (spread (User.email user) (PartialUser.email updates))
    (spread (User.firstName user) (PartialUser.firstName updates))
    (spread (User.lastName user) (PartialUser.lastName updates))
    (spread (User.password user) (PartialUser.password updates))
    (spread (User.fitnessGoals user) (PartialUser.fitnessGoals updates))
    (spread (User.currentWeight user) (PartialUser.currentWeight updates))
    (spread (User.targetWeight user) (PartialUser.targetWeight updates))
    (spread (User.workoutFrequency user)
            (PartialUser.workoutFrequency updates))
    (spread (User.currentStreak user) (PartialUser.currentStreak updates))
    (spread (User.longestStreak user) (PartialUser.longestStreak updates))
    (spread (User.createdAt user) (PartialUser.createdAt updates)).

Definition updateUser (id : string) (updates : PartialUser.t)
  : M (option User.t) :=
  user <- gets (fun s => JS.get id (users s)) ;;
  match user with
  | None => ret None
  | Some user =>
      let updatedUser := merge user updates in
      modify (set_users (JS.set id updatedUser)) ;;;
      ret (Some updatedUser)
  end.

(** *** Workout methods *)

(** [(a, b) => new Date(b.createdAt).getTime()
               - new Date(a.createdAt).getTime()] *)
Definition byCreatedAtDesc (a b : Workout.t) : Z :=
  Workout.createdAt b - Workout.createdAt a.

Definition getWorkoutsByUserId (userId : string) : M (list Workout.t) :=
  gets (fun s =>
    JS.sort byCreatedAtDesc
      (filter (fun workout => String.eqb (Workout.userId workout) userId)
              (JS.values (workouts s)))).

Definition getWorkout (id : string) : M (option Workout.t) :=
  gets (fun s => JS.get id (workouts s)).

Definition deleteWorkout (id : string) : M bool :=
  fun s =>
    let (deleted, m) := JS.delete id (workouts s) in
    (deleted, set_workouts (fun _ => m) s).

(** *** Health metrics methods *)

Definition metricsByCreatedAtDesc (a b : HealthMetrics.t) : Z :=
  HealthMetrics.createdAt b - HealthMetrics.createdAt a.

Definition getHealthMetricsByUserId (userId : string)
  : M (list HealthMetrics.t) :=
  gets (fun s =>
    JS.sort metricsByCreatedAtDesc
      (filter (fun metrics =>
                 String.eqb (HealthMetrics.userId metrics) userId)
              (JS.values (healthMetrics s)))).

Definition getLatestHealthMetrics (userId : string)
  : M (option HealthMetrics.t) :=
  metrics <- getHealthMetricsByUserId userId ;;
  ret (JS.index metrics 0).

Definition createHealthMetrics (id : string) (now : Z)
    (insertMetrics : InsertHealthMetrics.t) : M HealthMetrics.t :=
  let metrics :=
    HealthMetrics.mk id
      (InsertHealthMetrics.userId insertMetrics)
      (InsertHealthMetrics.weight insertMetrics)
      (InsertHealthMetrics.sleepHours insertMetrics)
      (InsertHealthMetrics.sleepQuality insertMetrics)
      (InsertHealthMetrics.waterIntake insertMetrics)
      (InsertHealthMetrics.notes insertMetrics)
      now in
  modify (set_healthMetrics (JS.set id metrics)) ;;;
  ret metrics.

(** *** Scheduled workouts methods *)

(** [(a, b) => new Date(a.scheduledDate).getTime()
               - new Date(b.scheduledDate).getTime()] *)
Definition byScheduledDateAsc (a b : ScheduledWorkout.t) : Z :=
  ScheduledWorkout.scheduledDate a - ScheduledWorkout.scheduledDate b.

Definition getScheduledWorkoutsByUserId (userId : string)
  : M (list ScheduledWorkout.t) :=
  gets (fun s =>
    JS.sort byScheduledDateAsc
      (filter (fun workout =>
                 String.eqb (ScheduledWorkout.userId workout) userId)
              (JS.values (scheduledWorkouts s)))).

Definition getScheduledWorkout (id : string)
  : M (option ScheduledWorkout.t) :=
  gets (fun s => JS.get id (scheduledWorkouts s)).

Definition createScheduledWorkout (id : string) (now : Z)
    (insertWorkout : InsertScheduledWorkout.t) : M ScheduledWorkout.t :=
  let workout :=
    ScheduledWorkout.mk id
      (InsertScheduledWorkout.userId insertWorkout)
      (InsertScheduledWorkout.name insertWorkout)
      (InsertScheduledWorkout.type insertWorkout)
      (InsertScheduledWorkout.scheduledDate insertWorkout)
      (InsertScheduledWorkout.duration insertWorkout)
      (Some 0) now in
  modify (set_scheduledWorkouts (JS.set id workout)) ;;;
  ret workout.

Definition deleteScheduledWorkout (id : string) : M bool :=
  fun s =>
    let (deleted, m) := JS.delete id (scheduledWorkouts s) in
    (deleted, set_scheduledWorkouts (fun _ => m) s).

(** *** The streak engine *)

Section STREAK.
(** The server's time zone. *)
Variable tz : TimeZone.t.

(** [1000 * 60 * 60 * 24] *)
Definition msPerDay : Z := 1000 * 60 * 60 * 24.

(** [d.setHours(0, 0, 0, 0); d.getTime()] *)
Definition startOfDay (d : Z) : Z := TimeZone.setHours0 tz d.

(** [Math.floor((today.getTime() - workoutDate.getTime())
                / (1000 * 60 * 60 * 24))], with [workoutDate] the
    workout's [createdAt] at local midnight. *)
Definition daysDiff (today : Z) (workout : Workout.t) : Z :=
  (today - startOfDay (Workout.createdAt workout)) / msPerDay.

(** The [for] loop: [i] is the index of the head of [rest] in
    [sortedWorkouts]. *)
Fixpoint streakLoop (today : Z) (i : Z) (rest : list Workout.t)
    (currentStreak : Z) : Z :=
  match rest with
  | [] => currentStreak
  | workout :: rest' =>
      if daysDiff today workout =? i
      then streakLoop today (i + 1) rest' (currentStreak + 1)
      else currentStreak
  end.

(** [now] is the [new Date()] read for [today]. *)
Definition updateUserStreak (userId : string) (now : Z) : M unit :=
  user <- getUser userId ;;
  match user with
  | None => ret tt
  | Some user =>
      userWorkouts <- getWorkoutsByUserId userId ;;
      let today := startOfDay now in
      let sortedWorkouts := JS.sort byCreatedAtDesc userWorkouts in
      let currentStreak := streakLoop today 0 sortedWorkouts 0 in
      let longestStreak :=
        Z.max (JS.orZero (User.longestStreak user)) currentStreak in
      updateUser userId
        (PartialUser.mk None None None None None None None None None None
           (Some (Some currentStreak)) (Some (Some longestStreak)) None)
      ;;; ret tt
  end.

(** [createdAt] is the [new Date()] stored in the workout, [now] the one
    read afterwards by the streak update. *)
Definition createWorkout (id : string) (createdAt now : Z)
    (insertWorkout : InsertWorkout.t) : M Workout.t :=
  let workout :=
    Workout.mk id
      (InsertWorkout.userId insertWorkout)
      (InsertWorkout.name insertWorkout)
      (InsertWorkout.type insertWorkout)
      (InsertWorkout.duration insertWorkout)
      (InsertWorkout.exercises insertWorkout)
      (InsertWorkout.notes insertWorkout)
      createdAt in
  modify (set_workouts (JS.set id workout)) ;;;
  updateUserStreak (InsertWorkout.userId insertWorkout) now ;;;
  ret workout.
End STREAK.

(** *** The remaining methods *)

(** [Array.from(this.users.values())
      .find(user => user.username === username)] *)
Definition getUserByUsername (username : string) : M (option User.t) :=
  gets (fun s =>
    find (fun user => String.eqb (User.username user) username)
         (JS.values (users s))).

Definition getUserByEmail (email : string) : M (option User.t) :=
  gets (fun s =>
    find (fun user => String.eqb (User.email user) email)
         (JS.values (users s))).



Definition mergeScheduledWorkout (workout : ScheduledWorkout.t)
    (updates : PartialScheduledWorkout.t) : ScheduledWorkout.t :=
  ScheduledWorkout.mk
    (spread (ScheduledWorkout.id workout)
            (PartialScheduledWorkout.id updates))
    (spread (ScheduledWorkout.userId workout)
            (PartialScheduledWorkout.userId updates))
    (spread (ScheduledWorkout.name workout)
            (PartialScheduledWorkout.name updates))
    (spread (ScheduledWorkout.type workout)
            (PartialScheduledWorkout.type updates))
    (spread (ScheduledWorkout.scheduledDate workout)
            (PartialScheduledWorkout.scheduledDate updates))
    (spread (ScheduledWorkout.duration workout)
            (PartialScheduledWorkout.duration updates))
    (spread (ScheduledWorkout.completed workout)
            (PartialScheduledWorkout.completed updates))
    (spread (ScheduledWorkout.createdAt workout)
            (PartialScheduledWorkout.createdAt updates)).

Definition updateScheduledWorkout (id : string)
    (updates : PartialScheduledWorkout.t) : M (option ScheduledWorkout.t) :=
  workout <- gets (fun s => JS.get id (scheduledWorkouts s)) ;;
  match workout with
  | None => ret None
  | Some workout =>
      let updatedWorkout := mergeScheduledWorkout workout updates in
      modify (set_scheduledWorkouts (JS.set id updatedWorkout)) ;;;
      ret (Some updatedWorkout)
  end.

End MemStorage.

(* ------------------------------------------------------------------ *)
(** ** The route handlers ([server/routes.ts]) that drive the store

    Every handler runs behind [requireAuth]; [reqUser] is [req.user.id]. *)

Module Routes.
Import MemStorage.
Local Open Scope store_scope.

Inductive Response (A : Type) : Type :=
| json (status : Z) (body : A)
| message (status : Z) (text : string)
| sendStatus (status : Z).
Arguments json {A}.
Arguments message {A}.
Arguments sendStatus {A}.

(** The dashboard snapshot. *)
Record Stats := mkStats {
  currentStreak : Z;
  longestStreak : Z;
  weeklyWorkouts : Z;
  totalWorkouts : Z;
  weightProgress : float;
  currentWeight : option float;
  targetWeight : option float
}.

(** [POST /api/workouts].  [body] is [None] when
    [insertWorkoutSchema.parse] throws; the parsed object carries
    [userId: req.user.id]. *)
Definition postWorkout (tz : TimeZone.t) (reqUser : string)
    (body : option InsertWorkout.t) (id : string) (createdAt now : Z)
  : M (Response Workout.t) :=
  match body with
  | None => ret (message 400 "Invalid workout data")
  | Some b =>
      let workoutData :=
        InsertWorkout.mk reqUser (InsertWorkout.name b)
          (InsertWorkout.type b) (InsertWorkout.duration b)
          (InsertWorkout.exercises b) (InsertWorkout.notes b) in
      workout <- createWorkout tz id createdAt now workoutData ;;
      ret (json 201 workout)
  end.

(** [DELETE /api/workouts/:id] *)
Definition deleteWorkoutRoute (reqUser : string) (id : string)
  : M (Response unit) :=
  workout <- getWorkout id ;;
  match workout with
  | None => ret (message 404 "Workout not found")
  | Some workout =>
      if negb (String.eqb (Workout.userId workout) reqUser)
      then ret (message 404 "Workout not found")
      else
        deleted <- deleteWorkout id ;;
        if deleted : bool then ret (sendStatus 204)
        else ret (message 500 "Error deleting workout")
  end.

(** [PATCH /api/user/profile]: the request body goes to [updateUser]
    as it is. *)
Definition patchProfile (reqUser : string) (body : PartialUser.t)
  : M (Response (option User.t)) :=
  updatedUser <- updateUser reqUser body ;;
  ret (json 200 updatedUser).

(** [latestMetrics?.weight] *)
Definition weightOf (m : option HealthMetrics.t) : option float :=
  match m with Some m => HealthMetrics.weight m | None => None end.

(** [w || fallback] where [fallback] is a number. *)
Definition orElse (w : option float) (fallback : float) : float :=
  match JS.or w (Some fallback) with Some f => f | None => fallback end.

(** [Math.round(x * 10) / 10] *)
Definition round1 (x : float) : float :=
  (JS.Math_round (x * 10) / 10)%float.

(** The weight-progress block; [None] stands for the [TypeError] of
    reading [.weight] of [undefined]. *)
Definition weightProgressOf (user : option User.t)
    (latestMetrics : option HealthMetrics.t)
    (metrics : list HealthMetrics.t) : option float :=
  match user with
  | Some user =>
      if (2 <=? Z.of_nat (List.length metrics))
         && JS.truthy (User.currentWeight user)
      then
        match User.currentWeight user,
              JS.index metrics (Z.of_nat (List.length metrics) - 1) with
        | Some userWeight, Some oldest =>
            let oldestWeight :=
              orElse (HealthMetrics.weight oldest) userWeight in
            let latestWeight :=
              orElse (weightOf latestMetrics) userWeight in
            Some (latestWeight - oldestWeight)%float
        | _, _ => None
        end
      else Some 0%float
  | None => Some 0%float
  end.

(** [const oneWeekAgo = new Date();
     oneWeekAgo.setDate(oneWeekAgo.getDate() - 7)], with [now] the
    [new Date()] read. *)
Definition oneWeekAgo (tz : TimeZone.t) (now : Z) : Z :=
  TimeZone.addDate tz now (- 7).

(** [GET /api/dashboard/stats] *)
Definition dashboardStats (tz : TimeZone.t) (reqUser : string) (now : Z)
  : M (Response Stats) :=
  user <- getUser reqUser ;;
  workouts <- getWorkoutsByUserId reqUser ;;
  latestMetrics <- getLatestHealthMetrics reqUser ;;
  let oneWeekAgo := oneWeekAgo tz now in
  let weeklyWorkouts :=
    Z.of_nat (List.length (filter (fun w => oneWeekAgo <=? Workout.createdAt w)
                             workouts)) in
  metrics <- getHealthMetricsByUserId reqUser ;;
  match weightProgressOf user latestMetrics metrics with
  | None => ret (message 500 "Error fetching dashboard stats")
  | Some weightProgress =>
      ret (json 200
        (mkStats
           (JS.orZero (match user with
                       | Some u => User.currentStreak u | None => None end))
           (JS.orZero (match user with
                       | Some u => User.longestStreak u | None => None end))
           weeklyWorkouts
           (Z.of_nat (List.length workouts))
           (round1 weightProgress)
           (JS.or (weightOf latestMetrics)
                  (match user with
                   | Some u => User.currentWeight u | None => None end))
           (match user with
            | Some u => User.targetWeight u | None => None end)))
  end.
(** [GET /api/workouts] *)
Definition getWorkoutsRoute (reqUser : string)
  : M (Response (list Workout.t)) :=
  workouts <- getWorkoutsByUserId reqUser ;;
  ret (json 200 workouts).

(** [GET /api/workouts/:id] *)
Definition getWorkoutRoute (reqUser : string) (id : string)
  : M (Response Workout.t) :=
  workout <- getWorkout id ;;
  match workout with
  | None => ret (message 404 "Workout not found")
  | Some workout =>
      if negb (String.eqb (Workout.userId workout) reqUser)
      then ret (message 404 "Workout not found")
      else ret (json 200 workout)
  end.

(** [GET /api/health-metrics] *)
Definition getHealthMetricsRoute (reqUser : string)
  : M (Response (list HealthMetrics.t)) :=
  metrics <- getHealthMetricsByUserId reqUser ;;
  ret (json 200 metrics).

(** [GET /api/health-metrics/latest]: [res.json(metrics || null)] *)
Definition getLatestHealthMetricsRoute (reqUser : string)
  : M (Response (option HealthMetrics.t)) :=
  metrics <- getLatestHealthMetrics reqUser ;;
  ret (json 200 metrics).

(** [POST /api/health-metrics]; [body] is [None] when the schema rejects
    the request. *)
Definition postHealthMetrics (reqUser : string)
    (body : option InsertHealthMetrics.t) (id : string) (now : Z)
  : M (Response HealthMetrics.t) :=
  match body with
  | None => ret (message 400 "Invalid health metrics data")
  | Some b =>
      let metricsData :=
        InsertHealthMetrics.mk reqUser (InsertHealthMetrics.weight b)
          (InsertHealthMetrics.sleepHours b)
          (InsertHealthMetrics.sleepQuality b)
          (InsertHealthMetrics.waterIntake b)
          (InsertHealthMetrics.notes b) in
      metrics <- createHealthMetrics id now metricsData ;;
      ret (json 201 metrics)
  end.

(** [GET /api/scheduled-workouts] *)
Definition getScheduledWorkoutsRoute (reqUser : string)
  : M (Response (list ScheduledWorkout.t)) :=
  workouts <- getScheduledWorkoutsByUserId reqUser ;;
  ret (json 200 workouts).

(** [POST /api/scheduled-workouts] *)
Definition postScheduledWorkout (reqUser : string)
    (body : option InsertScheduledWorkout.t) (id : string) (now : Z)
  : M (Response ScheduledWorkout.t) :=
  match body with
  | None => ret (message 400 "Invalid scheduled workout data")
  | Some b =>
      let workoutData :=
        InsertScheduledWorkout.mk reqUser (InsertScheduledWorkout.name b)
          (InsertScheduledWorkout.type b)
          (InsertScheduledWorkout.scheduledDate b)
          (InsertScheduledWorkout.duration b) in
      workout <- createScheduledWorkout id now workoutData ;;
      ret (json 201 workout)
  end.

(** [PATCH /api/scheduled-workouts/:id]: the request body goes to
    [updateScheduledWorkout] as it is. *)
Definition patchScheduledWorkout (reqUser : string) (id : string)
    (body : PartialScheduledWorkout.t)
  : M (Response (option ScheduledWorkout.t)) :=
  workout <- getScheduledWorkout id ;;
  match workout with
  | None => ret (message 404 "Scheduled workout not found")
  | Some workout =>
      if negb (String.eqb (ScheduledWorkout.userId workout) reqUser)
      then ret (message 404 "Scheduled workout not found")
      else
        updatedWorkout <- updateScheduledWorkout id body ;;
        ret (json 200 updatedWorkout)
  end.

(** [DELETE /api/scheduled-workouts/:id] *)
Definition deleteScheduledWorkoutRoute (reqUser : string) (id : string)
  : M (Response unit) :=
  workout <- getScheduledWorkout id ;;
  match workout with
  | None => ret (message 404 "Scheduled workout not found")
  | Some workout =>
      if negb (String.eqb (ScheduledWorkout.userId workout) reqUser)
      then ret (message 404 "Scheduled workout not found")
      else
        deleted <- deleteScheduledWorkout id ;;
        if deleted : bool then ret (sendStatus 204)
        else ret (message 500 "Error deleting scheduled workout")
  end.
End Routes.

(* ------------------------------------------------------------------ *)
(** ** Reference notions of the specification *)

Module Spec.
Import MemStorage.

(** The calendar day (a day number in server-local time) of an instant. *)
Definition dayOf (tz : TimeZone.t) (d : Z) : Z :=
  TimeZone.localTime tz d / TimeZone.msPerDay.

(** The user's workouts, in the store's iteration order. *)
Definition workoutsOf (s : MemStorage.t) (userId : string)
  : list Workout.t :=
  filter (fun w => String.eqb (Workout.userId w) userId)
         (JS.values (workouts s)).

(** The user's health metrics, in the store's iteration order. *)
Definition metricsOf (s : MemStorage.t) (userId : string)
  : list HealthMetrics.t :=
  filter (fun m => String.eqb (HealthMetrics.userId m) userId)
         (JS.values (healthMetrics s)).

(** The user's scheduled workouts, in the store's iteration order. *)
Definition scheduledOf (s : MemStorage.t) (userId : string)
  : list ScheduledWorkout.t :=
  filter (fun w => String.eqb (ScheduledWorkout.userId w) userId)
         (JS.values (scheduledWorkouts s)).

(** How many of the workouts [ws] fall on calendar day [day]. *)
Definition workoutsOn (tz : TimeZone.t) (ws : list Workout.t) (day : Z) : nat :=
  count_occ Z.eq_dec (map (fun w => dayOf tz (Workout.createdAt w)) ws) day.

(** An active day: a calendar day with at least one workout. *)
Definition activeDay (tz : TimeZone.t) (ws : list Workout.t) (day : Z) : bool :=
  existsb (fun w => dayOf tz (Workout.createdAt w) =? day) ws.

(** The number of consecutive active days ending at [day], looking at
    most [fuel] days back. *)
Fixpoint consecutiveActiveDays (tz : TimeZone.t) (ws : list Workout.t) (day : Z)
    (fuel : nat) : Z :=
  match fuel with
  | O => 0
  | S fuel' =>
      if activeDay tz ws day
      then 1 + consecutiveActiveDays tz ws (day - 1) fuel'
      else 0
  end.

(** The streak over the set of distinct active days: a streak is never
    longer than the number of workouts. *)
Definition streakOverActiveDays (tz : TimeZone.t) (ws : list Workout.t)
    (now : Z)
  : Z :=
  consecutiveActiveDays tz ws (dayOf tz now) (List.length ws).

(** The value of the local [currentStreak] of [updateUserStreak] when the
    loop ends: the loop run over the user's listing, sorted once more. *)
Definition computedStreak (tz : TimeZone.t) (s : MemStorage.t) (userId : string)
    (now : Z) : Z :=
  streakLoop tz (startOfDay tz now) 0
    (JS.sort byCreatedAtDesc (fst (getWorkoutsByUserId userId s))) 0.

(** The stored streak fields satisfy [longestStreak >= currentStreak]. *)
Definition streakInvariant (u : User.t) : Prop :=
  exists c l,
    User.currentStreak u = Some c /\ User.longestStreak u = Some l /\
    c <= l.

(** [user.longestStreak || 0] of a stored user, [0] without the user. *)
Definition longestOf (s : MemStorage.t) (userId : string) : Z :=
  JS.orZero (match JS.get userId (users s) with
             | Some u => User.longestStreak u
             | None => None
             end).

(** [u] with its two streak fields replaced. *)
Definition withStreak (u : User.t) (current longest : Z) : User.t :=
  User.mk (User.id u) (User.username u) (User.email u) (User.firstName u)
    (User.lastName u) (User.password u) (User.fitnessGoals u)
    (User.currentWeight u) (User.targetWeight u) (User.workoutFrequency u)
    (Some current) (Some longest) (User.createdAt u).

(** The record [createWorkout] builds from its argument. *)
Definition workoutOf (id : string) (createdAt : Z)
    (iw : InsertWorkout.t) : Workout.t :=
  Workout.mk id (InsertWorkout.userId iw) (InsertWorkout.name iw)
    (InsertWorkout.type iw) (InsertWorkout.duration iw)
    (InsertWorkout.exercises iw) (InsertWorkout.notes iw) createdAt.

(** The store with that record put in the workouts map and nothing else
    changed: the requested mutation of [createWorkout]. *)
Definition withWorkout (s : MemStorage.t) (id : string) (createdAt : Z)
    (iw : InsertWorkout.t) : MemStorage.t :=
  set_workouts (JS.set id (workoutOf id createdAt iw)) s.



(** An update that carries neither streak field. *)
Definition leavesStreak (updates : PartialUser.t) : bool :=
  match PartialUser.currentStreak updates,
        PartialUser.longestStreak updates with
  | None, None => true
  | _, _ => false
  end.
(** Local dates never go backwards as time goes on: true of a zone with a
    fixed offset, and of a zone whose clock is never set back across
    midnight. *)
Definition datesNeverGoBack (tz : TimeZone.t) : Prop :=
  forall a b, a <= b -> dayOf tz a <= dayOf tz b.

(** A [Map] holds each key once. *)
Definition uniqueKeys {V : Type} (m : JS.Map V) : Prop :=
  NoDup (map fst m).

(** The four maps of a store hold each key once. *)
Definition wellFormed (s : MemStorage.t) : Prop :=
  uniqueKeys (users s) /\ uniqueKeys (workouts s) /\
  uniqueKeys (healthMetrics s) /\ uniqueKeys (scheduledWorkouts s).
End Spec.

(* ------------------------------------------------------------------ *)
(** ** Sequences of operations on the store *)

Module Trace.
Import MemStorage.

(** One call into the store or into a route handler, with the values it
    reads from the environment. *)
Inductive Op : Type :=
| CreateUser (id : string) (now : Z) (insertUser : InsertUser.t)
| UpdateUser (id : string) (updates : PartialUser.t)
| PatchProfile (reqUser : string) (body : PartialUser.t)
| CreateWorkout (id : string) (createdAt now : Z)
    (insertWorkout : InsertWorkout.t)
| PostWorkout (reqUser : string) (body : option InsertWorkout.t)
    (id : string) (createdAt now : Z)
| DeleteWorkout (id : string)
| DeleteWorkoutRoute (reqUser : string) (id : string)
| CreateHealthMetrics (id : string) (now : Z)
    (insertMetrics : InsertHealthMetrics.t)
| CreateScheduledWorkout (id : string) (now : Z)
    (insertWorkout : InsertScheduledWorkout.t)
| DeleteScheduledWorkout (id : string)
| DashboardStats (reqUser : string) (now : Z).

Definition exec (tz : TimeZone.t) (op : Op) (s : MemStorage.t) : MemStorage.t :=
  match op with
  | CreateUser id now iu => snd (createUser id now iu s)
  | UpdateUser id updates => snd (updateUser id updates s)
  | PatchProfile reqUser body => snd (Routes.patchProfile reqUser body s)
  | CreateWorkout id createdAt now iw =>
      snd (createWorkout tz id createdAt now iw s)
  | PostWorkout reqUser body id createdAt now =>
      snd (Routes.postWorkout tz reqUser body id createdAt now s)
  | DeleteWorkout id => snd (deleteWorkout id s)
  | DeleteWorkoutRoute reqUser id =>
      snd (Routes.deleteWorkoutRoute reqUser id s)
  | CreateHealthMetrics id now im => snd (createHealthMetrics id now im s)
  | CreateScheduledWorkout id now iw =>
      snd (createScheduledWorkout id now iw s)
  | DeleteScheduledWorkout id => snd (deleteScheduledWorkout id s)
  | DashboardStats reqUser now =>
    snd (Routes.dashboardStats tz reqUser now s)
  end.

(** Runs the operations from left to right. *)
Definition run (tz : TimeZone.t) (ops : list Op) (s : MemStorage.t)
  : MemStorage.t :=
  fold_left (fun s op => exec tz op s) ops s.

(** No user update of the operation carries a streak field. *)
Definition keepsStreak (op : Op) : bool :=
  match op with
  | UpdateUser _ updates => Spec.leavesStreak updates
  | PatchProfile _ body => Spec.leavesStreak body
  | _ => true
  end.

(** The operation is a workout insertion. *)
Definition isInsertion (op : Op) : bool :=
  match op with
  | CreateWorkout _ _ _ _ => true
  | PostWorkout _ _ _ _ _ => true
  | _ => false
  end.
End Trace.

(* ------------------------------------------------------------------ *)
(** ** Concrete users, workouts and histories *)

Module Example.
Import MemStorage Trace.

(** Hour [h] of day number [d], in UTC. *)
Definition at_ (d h : Z) : Z := d * msPerDay + h * 3600000.

Definition alice : InsertUser.t :=
  InsertUser.mk "alice" "alice@example.com" "Alice" "Archer" "secret"
    None (Some 180%float) (Some 170%float) (Some 3).

Definition cardio (userId : string) : InsertWorkout.t :=
  InsertWorkout.mk userId "Run" "Cardio" 30 "[]" None.

(** Alice signs up on day 1. *)
Definition signUp : Op := CreateUser "u1" (at_ 1 9) alice.

(** Workouts on days 5, 8, 9 and 10. *)
Definition threeDays : MemStorage.t :=
  run TimeZone.utc [ signUp;
          CreateWorkout "w1" (at_ 5 7) (at_ 5 7) (cardio "u1");
          CreateWorkout "w2" (at_ 8 7) (at_ 8 7) (cardio "u1");
          CreateWorkout "w3" (at_ 9 7) (at_ 9 7) (cardio "u1");
          CreateWorkout "w4" (at_ 10 7) (at_ 10 7) (cardio "u1") ]
      MemStorage.new.

(** A workout on day 9 and one in the morning of day 10. *)
Definition twoDays : MemStorage.t :=
  run TimeZone.utc [ signUp;
          CreateWorkout "w1" (at_ 9 7) (at_ 9 7) (cardio "u1");
          CreateWorkout "w2" (at_ 10 8) (at_ 10 8) (cardio "u1") ]
      MemStorage.new.

(** The same, followed by a second workout in the evening of day 10. *)
Definition twoDaysTwice : MemStorage.t :=
  exec TimeZone.utc (CreateWorkout "w3" (at_ 10 18) (at_ 10 18) (cardio "u1"))
    twoDays.

(** Two workouts on day 10 and nothing else. *)
Definition todayTwice : MemStorage.t :=
  run TimeZone.utc [ signUp;
          CreateWorkout "w1" (at_ 10 8) (at_ 10 8) (cardio "u1");
          CreateWorkout "w2" (at_ 10 18) (at_ 10 18) (cardio "u1") ]
      MemStorage.new.

(** Two workouts stored with one creation timestamp, then a later one. *)
Definition sameInstant : MemStorage.t :=
  run TimeZone.utc [ signUp;
          CreateWorkout "w1" (at_ 9 7) (at_ 9 7) (cardio "u1");
          CreateWorkout "w2" (at_ 9 7) (at_ 9 7) (cardio "u1");
          CreateWorkout "w3" (at_ 10 7) (at_ 10 7) (cardio "u1") ]
      MemStorage.new.

(** A profile update whose body carries [currentStreak: 5]. *)
Definition forgedStreak : PartialUser.t :=
  PartialUser.mk None None None None None None None None None None
    (Some (Some 5)) None None.

(** A profile update that only changes the target weight. *)
Definition newTarget : PartialUser.t :=
  PartialUser.mk None None None None None None None None
    (Some (Some 165%float)) None None None None.

Definition weighIn (userId : string) (w : option float)
  : InsertHealthMetrics.t :=
  InsertHealthMetrics.mk userId w None None None None.


(** A second user. *)
Definition bob : InsertUser.t :=
  InsertUser.mk "bob" "bob@example.com" "Bob" "Baker" "hunter2"
    None None None None.

Definition legDay (userId : string) : InsertScheduledWorkout.t :=
  InsertScheduledWorkout.mk userId "Legs" "Strength Training" (at_ 12 18) 45.

(** Alice and Bob; Alice has a workout on day 9, a weigh-in and a
    scheduled workout, Bob has a workout on day 10. *)
Definition twoUsers : MemStorage.t :=
  run TimeZone.utc [ signUp;
          CreateUser "u2" (at_ 2 9) bob;
          CreateWorkout "w1" (at_ 9 7) (at_ 9 7) (cardio "u1");
          CreateWorkout "w2" (at_ 10 7) (at_ 10 7) (cardio "u2");
          CreateHealthMetrics "m1" (at_ 9 8) (weighIn "u1" (Some 178%float));
          CreateScheduledWorkout "s1" (at_ 9 9) (legDay "u1") ]
      MemStorage.new.
(** America/New_York in 2026: five hours behind UTC, four hours behind from
    8 March 07:00 UTC to 1 November 06:00 UTC.  Day 20520 is 8 March 2026
    and day 20758 is 1 November 2026. *)
Definition est : Z := - 5 * 3600000.

Definition edt : Z := - 4 * 3600000.

Definition newYork : TimeZone.t :=
  TimeZone.mk
    (fun t => if t <? at_ 20520 7 then est
              else if t <? at_ 20758 6 then edt else est)
    (fun l => if l <? at_ 20520 3 then est
              else if l <? at_ 20758 2 then edt else est).

(** On a New York server: workouts at noon on Sunday 8 March and at noon on
    Monday 9 March 2026. *)
Definition sundayAndMonday : MemStorage.t :=
  run newYork
      [ signUp;
        CreateWorkout "w1" (at_ 20520 16) (at_ 20520 16) (cardio "u1");
        CreateWorkout "w2" (at_ 20521 16) (at_ 20521 16) (cardio "u1") ]
      MemStorage.new.

(** On a New York server: one workout, at noon on Sunday 8 March 2026. *)
Definition sundayOnly : MemStorage.t :=
  run newYork
      [ signUp;
        CreateWorkout "w1" (at_ 20520 16) (at_ 20520 16) (cardio "u1") ]
      MemStorage.new.

(** On a New York server: workouts at noon on Saturday 7 March and at noon
    on Monday 9 March 2026. *)
Definition saturdayAndMonday : MemStorage.t :=
  run newYork
      [ signUp;
        CreateWorkout "w1" (at_ 20519 17) (at_ 20519 17) (cardio "u1");
        CreateWorkout "w2" (at_ 20521 16) (at_ 20521 16) (cardio "u1") ]
      MemStorage.new.
End Example.

(* ------------------------------------------------------------------ *)
(** ** Facts about the built-ins *)

Section MapFacts.
Context {V : Type}.
Implicit Types (m : JS.Map V) (k : string) (v : V).

Lemma get_set_same k v m : JS.get k (JS.set k v m) = Some v.
Proof.
  induction m as [|[k' v'] m IH]; simpl.
  - now rewrite String.eqb_refl.
  - destruct (String.eqb k k') eqn:E; simpl.
    + now rewrite String.eqb_refl.
    + now rewrite E.
Qed.

Lemma get_set_other k k' v m :
  k' <> k -> JS.get k' (JS.set k v m) = JS.get k' m.
Proof.
  intros Hne. induction m as [|[k0 v0] m IH]; simpl.
  - destruct (String.eqb_spec k' k); congruence.
  - destruct (String.eqb_spec k k0) as [->|Hk]; simpl.
    + destruct (String.eqb_spec k' k0); congruence.
    + destruct (String.eqb_spec k' k0); auto.
Qed.

(** A key that is not in the map goes to the end of the iteration
    order. *)
Lemma values_set_fresh k v m :
  JS.get k m = None -> JS.values (JS.set k v m) = JS.values m ++ [v].
Proof.
  unfold JS.values.
  induction m as [|[k' v'] m IH]; simpl; intros H; auto.
  destruct (String.eqb k k'); [discriminate|].
  simpl. now rewrite IH.
Qed.
End MapFacts.

Section SortFacts.
Context {A : Type} (cmp : A -> A -> Z).

Local Notation "'before'" := (fun x y : A => cmp x y <= 0).

Lemma insert_perm x l : Permutation (x :: l) (JS.insert cmp x l).
Proof.
  induction l as [|y l IH]; simpl; auto.
  destruct (cmp x y <=? 0); auto.
  eapply perm_trans; [apply perm_swap|]. now constructor.
Qed.

Lemma sort_perm l : Permutation l (JS.sort cmp l).
Proof.
  induction l as [|x l IH]; simpl; auto.
  eapply perm_trans; [|apply insert_perm]. now constructor.
Qed.

Lemma sort_In x l : In x (JS.sort cmp l) <-> In x l.
Proof.
  split; apply Permutation_in;
    [apply Permutation_sym|]; apply sort_perm.
Qed.

(** Stability: elements selected by [p], when [cmp] never asks to swap two
    of them, come out in the order they went in. *)
Lemma filter_insert (p : A -> bool) x l :
  (forall y, p x = true -> p y = true -> cmp x y <= 0) ->
  filter p (JS.insert cmp x l) = filter p (x :: l).
Proof.
  intros Hp. induction l as [|y l IH]; auto.
  cbn [JS.insert]. destruct (Z.leb_spec (cmp x y) 0) as [Hle|Hgt]; auto.
  cbn [filter] in *. rewrite IH.
  destruct (p x) eqn:Ex, (p y) eqn:Ey; auto.
  specialize (Hp y eq_refl Ey). lia.
Qed.

Lemma filter_sort (p : A -> bool) l :
  (forall x y, p x = true -> p y = true -> cmp x y <= 0) ->
  filter p (JS.sort cmp l) = filter p l.
Proof.
  intros Hp. induction l as [|x l IH]; auto.
  cbn [JS.sort fold_right]. fold (JS.sort cmp l).
  rewrite filter_insert by (intros; now apply Hp).
  cbn [filter]. now rewrite IH.
Qed.

Hypothesis cmp_trans :
  forall x y z, cmp x y <= 0 -> cmp y z <= 0 -> cmp x z <= 0.
Hypothesis cmp_total : forall x y, 0 < cmp x y -> cmp y x <= 0.

Lemma insert_sorted x l :
  StronglySorted before l -> StronglySorted before (JS.insert cmp x l).
Proof.
  induction 1 as [|y l Hs IH Hall]; simpl.
  - repeat constructor.
  - destruct (Z.leb_spec (cmp x y) 0) as [Hle|Hgt].
    + constructor; [now constructor|].
      constructor; auto.
      eapply Forall_impl; [|exact Hall].
      intros z Hz. eapply cmp_trans; eauto.
    + constructor; auto.
      rewrite Forall_forall in *. intros z Hz.
      apply (Permutation_in _ (Permutation_sym (insert_perm x l))) in Hz.
      destruct Hz as [<-|Hz]; [now apply cmp_total | now apply Hall].
Qed.

Lemma sort_sorted l : StronglySorted before (JS.sort cmp l).
Proof.
  induction l; simpl; [constructor | now apply insert_sorted].
Qed.
End SortFacts.

Lemma StronglySorted_weaken {A} (R R' : A -> A -> Prop) l :
  (forall x y, R x y -> R' x y) ->
  StronglySorted R l -> StronglySorted R' l.
Proof.
  intros HR. induction 1 as [|x l Hs IH Hall]; constructor; auto.
  eapply Forall_impl; [|exact Hall]. auto.
Qed.

(** What a listing by a numeric key guarantees: the records of the input,
    in key order, with equal keys left in input order. *)
Section KeyedSort.
Context {A : Type} (key : A -> Z).

(** Largest key first. *)
Lemma sort_desc_spec l :
  let r := JS.sort (fun a b => key b - key a) l in
  Permutation l r /\
  StronglySorted (fun a b => key b <= key a) r /\
  forall t, filter (fun a => key a =? t) r = filter (fun a => key a =? t) l.
Proof.
  cbn zeta. split; [apply sort_perm|]. split.
  - eapply StronglySorted_weaken; [|apply sort_sorted];
      cbn beta; intros; lia.
  - intros t. apply filter_sort. intros x y Hx Hy. lia.
Qed.

(** Smallest key first. *)
Lemma sort_asc_spec l :
  let r := JS.sort (fun a b => key a - key b) l in
  Permutation l r /\
  StronglySorted (fun a b => key a <= key b) r /\
  forall t, filter (fun a => key a =? t) r = filter (fun a => key a =? t) l.
Proof.
  cbn zeta. split; [apply sort_perm|]. split.
  - eapply StronglySorted_weaken; [|apply sort_sorted];
      cbn beta; intros; lia.
  - intros t. apply filter_sort. intros x y Hx Hy. lia.
Qed.
End KeyedSort.

(* ------------------------------------------------------------------ *)
(** ** Per-user listings *)

(** C7: [getWorkoutsByUserId] and [getHealthMetricsByUserId] return exactly
    the user's records with the most recent creation timestamp first,
    [getScheduledWorkoutsByUserId] returns the user's records with the
    soonest scheduled date first, and in each listing the records that share
    a timestamp appear in the store's iteration order, which is insertion
    order: workouts [w1] and [w2] stored with one timestamp and a later
    [w3] are listed [w3], [w1], [w2].  None of the three changes the
    store. *)
Theorem listings_ordered_and_stable (s : MemStorage.t) (userId : string) :
  (let r := fst (MemStorage.getWorkoutsByUserId userId s) in
   snd (MemStorage.getWorkoutsByUserId userId s) = s /\
   Permutation (Spec.workoutsOf s userId) r /\
   StronglySorted
     (fun a b => Workout.createdAt b <= Workout.createdAt a) r /\
   forall t,
     filter (fun w => Workout.createdAt w =? t) r =
     filter (fun w => Workout.createdAt w =? t) (Spec.workoutsOf s userId))
  /\
  (let r := fst (MemStorage.getHealthMetricsByUserId userId s) in
   snd (MemStorage.getHealthMetricsByUserId userId s) = s /\
   Permutation (Spec.metricsOf s userId) r /\
   StronglySorted
     (fun a b => HealthMetrics.createdAt b <= HealthMetrics.createdAt a) r /\
   forall t,
     filter (fun m => HealthMetrics.createdAt m =? t) r =
     filter (fun m => HealthMetrics.createdAt m =? t)
            (Spec.metricsOf s userId))
  /\
  (let r := fst (MemStorage.getScheduledWorkoutsByUserId userId s) in
   snd (MemStorage.getScheduledWorkoutsByUserId userId s) = s /\
   Permutation (Spec.scheduledOf s userId) r /\
   StronglySorted
     (fun a b =>
        ScheduledWorkout.scheduledDate a <= ScheduledWorkout.scheduledDate b)
     r /\
   forall t,
     filter (fun w => ScheduledWorkout.scheduledDate w =? t) r =
     filter (fun w => ScheduledWorkout.scheduledDate w =? t)
            (Spec.scheduledOf s userId))
  /\
  map Workout.id
      (fst (MemStorage.getWorkoutsByUserId "u1" Example.sameInstant)) =
    ["w3"; "w1"; "w2"]%string.
Proof.
  split; [|split; [|split]]; cbn zeta;
    [split; [reflexivity|] .. | vm_compute; reflexivity].
  - apply (sort_desc_spec Workout.createdAt).
  - apply (sort_desc_spec HealthMetrics.createdAt).
  - apply (sort_asc_spec ScheduledWorkout.scheduledDate).
Qed.

(* ------------------------------------------------------------------ *)
(** ** The streak engine *)

Section StreakFacts.
Import MemStorage.
Variable tz : TimeZone.t.

(** In a zone with a fixed offset local midnights are whole days apart, and
    the day offset is the difference of the calendar day numbers. *)
Lemma daysDiff_dayOf off now w :
  daysDiff (TimeZone.fixed off) (startOfDay (TimeZone.fixed off) now) w =
  Spec.dayOf (TimeZone.fixed off) now
  - Spec.dayOf (TimeZone.fixed off) (Workout.createdAt w).
Proof.
  unfold daysDiff, startOfDay, Spec.dayOf, TimeZone.setHours0,
    TimeZone.toUTC, TimeZone.localTime, TimeZone.fixed.
  cbn [TimeZone.offsetAt TimeZone.offsetOfLocal].
  set (a := (now + off) / TimeZone.msPerDay).
  set (b := (Workout.createdAt w + off) / TimeZone.msPerDay).
  change msPerDay with TimeZone.msPerDay.
  replace (a * TimeZone.msPerDay - off - (b * TimeZone.msPerDay - off))
    with ((a - b) * TimeZone.msPerDay) by ring.
  apply Z.div_mul. unfold TimeZone.msPerDay. lia.
Qed.

(** In any zone the local midnight depends on the calendar day only, so a
    workout dated today has day offset 0. *)
Lemma daysDiff_same_day now w :
  Spec.dayOf tz (Workout.createdAt w) = Spec.dayOf tz now ->
  daysDiff tz (startOfDay tz now) w = 0.
Proof.
  unfold daysDiff, startOfDay, Spec.dayOf, TimeZone.setHours0.
  intros ->. now rewrite Z.sub_diag.
Qed.

(** What [updateUserStreak] writes. *)
Lemma updateUserStreak_found s userId now u :
  JS.get userId (users s) = Some u ->
  updateUserStreak tz userId now s =
  (tt, set_users
         (JS.set userId
            (Spec.withStreak u (Spec.computedStreak tz s userId now)
               (Z.max (JS.orZero (User.longestStreak u))
                      (Spec.computedStreak tz s userId now)))) s).
Proof.
  intros Hu.
  unfold updateUserStreak, bind, getUser, gets, updateUser, modify, ret.
  cbn. rewrite Hu. cbn. rewrite Hu. reflexivity.
Qed.

Lemma updateUserStreak_missing s userId now :
  JS.get userId (users s) = None ->
  updateUserStreak tz userId now s = (tt, s).
Proof.
  intros Hu. unfold updateUserStreak, bind, getUser, gets, ret.
  cbn. now rewrite Hu.
Qed.

Section Loop.
Variable today : Z.
Local Notation "'dd'" := (daysDiff tz today).

(** The loop counts a prefix [i, i+1, ..., i+n-1] of day offsets. *)
Lemma streakLoop_consecutive (n : nat) :
  forall l i acc,
    StronglySorted (fun a b => dd a <= dd b) l ->
    Forall (fun w => i <= dd w) l ->
    (forall k, i <= k < i + Z.of_nat n ->
               count_occ Z.eq_dec (map dd l) k = 1%nat) ->
    count_occ Z.eq_dec (map dd l) (i + Z.of_nat n) = 0%nat ->
    streakLoop tz today i l acc = acc + Z.of_nat n.
Proof.
  induction n as [|n IH]; intros l i acc Hs Hlo Hone Hnone.
  - destruct l as [|w l]; cbn [streakLoop]; [lia|].
    cbn [map] in Hnone.
    destruct (Z.eqb_spec (dd w) i) as [E|E]; [|lia].
    rewrite count_occ_cons_eq in Hnone by (cbn; lia). discriminate.
  - assert (Hi : count_occ Z.eq_dec (map dd l) i = 1%nat)
      by (apply Hone; lia).
    destruct l as [|w l]; [discriminate|].
    apply StronglySorted_inv in Hs. destruct Hs as [Hs Hall].
    rewrite Forall_forall in Hall.
    apply Forall_cons_iff in Hlo. destruct Hlo as [Hw Hlo].
    rewrite Forall_forall in Hlo.
    cbn [map] in *.
    assert (E : dd w = i).
    { destruct (Z.eq_dec (dd w) i) as [E|E]; auto.
      rewrite count_occ_cons_neq in Hi by exact E.
      assert (Hin : In i (map dd l))
        by (apply (count_occ_In Z.eq_dec); lia).
      apply in_map_iff in Hin. destruct Hin as [x [Hx Hin]].
      specialize (Hall x Hin). lia. }
    rewrite count_occ_cons_eq in Hi by exact E.
    assert (Hni : ~ In i (map dd l))
      by (apply (count_occ_not_In Z.eq_dec); lia).
    cbn [streakLoop]. rewrite E, Z.eqb_refl.
    rewrite (IH l (i + 1) (acc + 1)); [lia|exact Hs| | |].
    + apply Forall_forall. intros x Hin.
      assert (dd x <> i)
        by (intros Hx; apply Hni, in_map_iff; eauto).
      specialize (Hlo x Hin). lia.
    + intros k Hk.
      specialize (Hone k ltac:(lia)).
      rewrite count_occ_cons_neq in Hone by lia. exact Hone.
    + rewrite count_occ_cons_neq in Hnone by lia.
      replace (i + 1 + Z.of_nat n) with (i + Z.of_nat (S n)) by lia.
      exact Hnone.
Qed.

(** Without a workout at offset [0] the loop stops at once. *)
Lemma streakLoop_no_today l :
  ~ In 0 (map dd l) -> streakLoop tz today 0 l 0 = 0.
Proof.
  destruct l as [|w l]; cbn [streakLoop map]; auto.
  intros Hn. destruct (Z.eqb_spec (dd w) 0) as [E|E]; auto.
  exfalso. apply Hn. now left.
Qed.
End Loop.

(** The list the loop runs over. *)
Lemma sortedWorkouts_spec s userId :
  let l := JS.sort byCreatedAtDesc
             (fst (getWorkoutsByUserId userId s)) in
  Permutation (Spec.workoutsOf s userId) l /\
  StronglySorted
    (fun a b => Workout.createdAt b <= Workout.createdAt a) l.
Proof.
  cbn zeta. split.
  - eapply perm_trans; [|apply sort_perm]. apply sort_perm.
  - apply (sort_desc_spec Workout.createdAt).
Qed.

Lemma dayOf_mono off : Spec.datesNeverGoBack (TimeZone.fixed off).
Proof.
  intros a b H. unfold Spec.dayOf, TimeZone.localTime, TimeZone.fixed.
  cbn [TimeZone.offsetAt]. apply Z.div_le_mono; [|lia].
  unfold TimeZone.msPerDay. lia.
Qed.
End StreakFacts.

Lemma count_occ_offset {A} (f g : A -> Z) (c : Z) (l : list A) (k : Z) :
  (forall a, f a = c - g a) ->
  count_occ Z.eq_dec (map f l) k = count_occ Z.eq_dec (map g l) (c - k).
Proof.
  intros Hfg. induction l as [|a l IH]; cbn [map]; auto.
  destruct (Z.eq_dec (f a) k) as [E|E].
  - rewrite !count_occ_cons_eq; auto. rewrite Hfg in E. lia.
  - rewrite !count_occ_cons_neq; auto. rewrite Hfg in E. lia.
Qed.

(** X22: on a server whose zone has a fixed offset, when the user's workouts
    fall one per day on each of the [n] calendar days today, today-1, ...,
    today-(n-1), none falls on today-n and none is dated after today,
    [updateUserStreak] stores [currentStreak = n], whatever lies further
    back; and when no workout falls on today it stores
    [currentStreak = 0]. *)
Theorem streak_counts_consecutive_days
    (off : Z) (s : MemStorage.t) (userId : string) (now : Z) (u : User.t)
    (Hu : JS.get userId (MemStorage.users s) = Some u) :
  let tz := TimeZone.fixed off in
  let ws := Spec.workoutsOf s userId in
  let today := Spec.dayOf tz now in
  let stored :=
    option_map User.currentStreak
      (JS.get userId
         (MemStorage.users
            (snd (MemStorage.updateUserStreak tz userId now s)))) in
  (forall n : Z,
      0 <= n ->
      (forall k, 0 <= k < n -> Spec.workoutsOn tz ws (today - k) = 1%nat) ->
      Spec.workoutsOn tz ws (today - n) = 0%nat ->
      (forall w, In w ws -> Spec.dayOf tz (Workout.createdAt w) <= today) ->
      stored = Some (Some n))
  /\
  (Spec.workoutsOn tz ws today = 0%nat -> stored = Some (Some 0)).
Proof.
  cbn zeta. set (tz := TimeZone.fixed off).
  rewrite (updateUserStreak_found tz s userId now u Hu).
  cbn [snd MemStorage.set_users MemStorage.users].
  rewrite get_set_same. cbn [option_map Spec.withStreak User.currentStreak].
  destruct (sortedWorkouts_spec s userId) as [Hperm Hsorted].
  unfold Spec.computedStreak.
  set (l := JS.sort MemStorage.byCreatedAtDesc
              (fst (MemStorage.getWorkoutsByUserId userId s))) in *.
  set (today := MemStorage.startOfDay tz now).
  assert (Hdd : forall w,
             MemStorage.daysDiff tz today w =
             Spec.dayOf tz now - Spec.dayOf tz (Workout.createdAt w))
    by (intros; apply daysDiff_dayOf).
  assert (Hcount : forall k,
             count_occ Z.eq_dec (map (MemStorage.daysDiff tz today) l) k =
             Spec.workoutsOn tz (Spec.workoutsOf s userId)
               (Spec.dayOf tz now - k)).
  { intros k. unfold Spec.workoutsOn.
    rewrite <- (proj1 (Permutation_count_occ Z.eq_dec _ _)
                  (Permutation_map (MemStorage.daysDiff tz today) Hperm)).
    apply count_occ_offset. exact Hdd. }
  split.
  - intros n Hn Hone Hnone Hpast.
    rewrite (streakLoop_consecutive tz today (Z.to_nat n) l 0 0).
    + f_equal. f_equal. lia.
    + eapply StronglySorted_weaken; [|exact Hsorted].
      cbn beta. intros a b Hab. rewrite !Hdd.
      pose proof (dayOf_mono off _ _ Hab). fold tz in H. lia.
    + apply Forall_forall. intros w Hw. rewrite Hdd.
      apply (Permutation_in _ (Permutation_sym Hperm)) in Hw.
      specialize (Hpast w Hw). lia.
    + intros k Hk. rewrite Hcount. apply Hone. lia.
    + rewrite Hcount. rewrite Z2Nat.id by lia.
      replace (Spec.dayOf tz now - (0 + n)) with (Spec.dayOf tz now - n)
        by lia.
      exact Hnone.
  - intros Hnone. rewrite streakLoop_no_today; auto.
    rewrite (count_occ_In Z.eq_dec), Hcount, Z.sub_0_r, Hnone. lia.
Qed.

Lemma streak_counts_consecutive_days_witness :
  option_map User.currentStreak
    (JS.get "u1"
       (MemStorage.users
          (snd (MemStorage.updateUserStreak TimeZone.utc "u1"
                  (Example.at_ 10 12)
                  Example.threeDays)))) = Some (Some 3).
Proof.
  destruct (JS.get "u1" (MemStorage.users Example.threeDays)) as [u|] eqn:Hu;
    [|discriminate Hu].
  apply (proj1 (streak_counts_consecutive_days 0 Example.threeDays "u1"
                  (Example.at_ 10 12) u Hu) 3).
  - lia.
  - intros k Hk.
    assert (Hc : k = 0 \/ k = 1 \/ k = 2) by lia.
    destruct Hc as [-> | [-> | ->]]; vm_compute; reflexivity.
  - vm_compute. reflexivity.
  - intros w Hw. vm_compute in Hw.
    destruct Hw as [<- | [<- | [<- | [<- | []]]]]; vm_compute; discriminate.
Defined.

(** C1: a second workout on one day of a streak ends the count there.  With
    workouts yesterday and this morning the stored [currentStreak] is 2;
    once a second workout is inserted this evening [updateUserStreak] stores
    1, while the streak over the distinct active days is still 2.  Two
    workouts today and nothing else give 1, which is also the streak over
    the distinct active days. *)
Theorem same_day_workout_stops_the_count :
  option_map User.currentStreak
    (JS.get "u1" (MemStorage.users Example.twoDays)) = Some (Some 2) /\
  option_map User.currentStreak
    (JS.get "u1" (MemStorage.users Example.twoDaysTwice)) = Some (Some 1) /\
  Spec.streakOverActiveDays TimeZone.utc
    (Spec.workoutsOf Example.twoDaysTwice "u1")
    (Example.at_ 10 18) = 2 /\
  option_map User.currentStreak
    (JS.get "u1" (MemStorage.users Example.todayTwice)) = Some (Some 1) /\
  Spec.streakOverActiveDays TimeZone.utc
    (Spec.workoutsOf Example.todayTwice "u1")
    (Example.at_ 10 18) = 1.
Proof.
  repeat split; vm_compute; reflexivity.
Qed.

(* ------------------------------------------------------------------ *)
(** ** Workout insertion *)

Section CreateWorkoutFacts.
Import MemStorage.
Variable tz : TimeZone.t.

(** [createWorkout] is the insertion followed by the streak update. *)
Lemma createWorkout_unfold id createdAt now iw s :
  createWorkout tz id createdAt now iw s =
  (Spec.workoutOf id createdAt iw,
   snd (updateUserStreak tz (InsertWorkout.userId iw) now
          (Spec.withWorkout s id createdAt iw))).
Proof.
  unfold createWorkout, bind, modify, ret, Spec.withWorkout,
    Spec.workoutOf.
  cbv beta iota zeta.
  match goal with
  | |- context [updateUserStreak tz ?uid now ?s1] =>
      destruct (updateUserStreak tz uid now s1) as [[] s']
  end.
  reflexivity.
Qed.

Lemma createWorkout_found id createdAt now iw s u :
  JS.get (InsertWorkout.userId iw) (users s) = Some u ->
  let s1 := Spec.withWorkout s id createdAt iw in
  let cs := Spec.computedStreak tz s1 (InsertWorkout.userId iw) now in
  createWorkout tz id createdAt now iw s =
  (Spec.workoutOf id createdAt iw,
   set_users
     (JS.set (InsertWorkout.userId iw)
        (Spec.withStreak u cs
           (Z.max (JS.orZero (User.longestStreak u)) cs))) s1).
Proof.
  intros Hu. cbn zeta. rewrite createWorkout_unfold.
  rewrite (updateUserStreak_found tz _ _ now u) by exact Hu.
  reflexivity.
Qed.

Lemma createWorkout_missing id createdAt now iw s :
  JS.get (InsertWorkout.userId iw) (users s) = None ->
  createWorkout tz id createdAt now iw s =
  (Spec.workoutOf id createdAt iw, Spec.withWorkout s id createdAt iw).
Proof.
  intros Hu. rewrite createWorkout_unfold.
  rewrite updateUserStreak_missing by exact Hu. reflexivity.
Qed.

Lemma createWorkout_longest id createdAt now iw s userId :
  Spec.longestOf s userId <=
  Spec.longestOf (snd (createWorkout tz id createdAt now iw s)) userId.
Proof.
  destruct (JS.get (InsertWorkout.userId iw) (users s)) as [u|] eqn:Hu.
  - rewrite (createWorkout_found _ _ _ _ _ u Hu). cbn zeta.
    unfold Spec.longestOf. cbn [snd set_users users Spec.withWorkout
                                set_workouts].
    destruct (String.eqb_spec userId (InsertWorkout.userId iw)) as [->|Hne].
    + rewrite get_set_same, Hu. cbn. lia.
    + rewrite get_set_other by exact Hne. lia.
  - rewrite createWorkout_missing by exact Hu.
    unfold Spec.longestOf. cbn. lia.
Qed.

Lemma postWorkout_longest reqUser body id createdAt now s userId :
  Spec.longestOf s userId <=
  Spec.longestOf
    (snd (Routes.postWorkout tz reqUser body id createdAt now s)) userId.
Proof.
  destruct body as [b|]; [|cbn; lia].
  unfold Routes.postWorkout, bind, ret.
  match goal with
  | |- context [createWorkout tz id createdAt now ?iw s] =>
      pose proof (createWorkout_longest id createdAt now iw s userId) as H;
      destruct (createWorkout tz id createdAt now iw s) as [w s']
  end.
  exact H.
Qed.
End CreateWorkoutFacts.

(** C3: when the owner of the new workout is a stored user, after
    [createWorkout] the user's [currentStreak] is the streak just computed
    over the store that holds the new workout, and the user's
    [longestStreak] is the larger of the previous [longestStreak] (0 when it
    was null) and that streak; and over any sequence of workout insertions,
    through the store or through [POST /api/workouts], no user's
    [longestStreak] decreases. *)
Theorem longest_streak_ratchets (tz : TimeZone.t) :
  (forall s id createdAt now iw u,
      JS.get (InsertWorkout.userId iw) (MemStorage.users s) = Some u ->
      let s' := snd (MemStorage.createWorkout tz id createdAt now iw s) in
      let cs :=
        Spec.computedStreak tz (Spec.withWorkout s id createdAt iw)
          (InsertWorkout.userId iw) now in
      exists u',
        JS.get (InsertWorkout.userId iw) (MemStorage.users s') = Some u' /\
        User.currentStreak u' = Some cs /\
        User.longestStreak u' =
          Some (Z.max (JS.orZero (User.longestStreak u)) cs))
  /\
  (forall ops s userId,
      forallb Trace.isInsertion ops = true ->
      Spec.longestOf s userId <= Spec.longestOf (Trace.run tz ops s) userId).
Proof.
  split.
  - intros s id createdAt now iw u Hu. cbn zeta.
    rewrite (createWorkout_found tz _ _ _ _ _ u Hu). cbn zeta.
    cbn [snd MemStorage.set_users MemStorage.users].
    rewrite get_set_same. eexists. split; [reflexivity|]. split; reflexivity.
  - intros ops. unfold Trace.run.
    induction ops as [|op ops IH]; intros s userId Hops; cbn [fold_left].
    + lia.
    + cbn [forallb] in Hops. apply andb_prop in Hops.
      destruct Hops as [Hop Hops].
      eapply Z.le_trans; [|apply IH; exact Hops].
      destruct op; try discriminate Hop; cbn [Trace.exec].
      * apply createWorkout_longest.
      * apply postWorkout_longest.
Qed.

Lemma longest_streak_ratchets_witness :
  exists u',
    JS.get "u1"
      (MemStorage.users
         (snd (MemStorage.createWorkout TimeZone.utc "w3" (Example.at_ 10 18)
                 (Example.at_ 10 18) (Example.cardio "u1")
                 Example.twoDays))) = Some u' /\
    User.currentStreak u' = Some 1 /\
    User.longestStreak u' = Some 2.
Proof.
  destruct (JS.get "u1" (MemStorage.users Example.twoDays)) as [u|] eqn:Hu;
    [|discriminate Hu].
  destruct (proj1 (longest_streak_ratchets TimeZone.utc) Example.twoDays
              "w3"%string
              (Example.at_ 10 18) (Example.at_ 10 18) (Example.cardio "u1")
              u Hu) as [u' [Hget [Hcur Hlong]]].
  exists u'. split; [exact Hget|]. split.
  - rewrite Hcur. vm_compute. reflexivity.
  - rewrite Hlong. vm_compute in Hu. injection Hu as <-.
    vm_compute. reflexivity.
Defined.

(** C6 as stated fails: after [createWorkout] for a stored user the users
    map is not what it was, since the owner's streak has been rewritten. *)
Lemma createWorkout_rewrites_owner :
  ~ (forall tz id createdAt now iw s,
        MemStorage.users
          (snd (MemStorage.createWorkout tz id createdAt now iw s)) =
        MemStorage.users s).
Proof.
  intros H.
  specialize (H TimeZone.utc "w1"%string (Example.at_ 10 8) (Example.at_ 10 8)
                (Example.cardio "u1")
                (Trace.exec TimeZone.utc Example.signUp MemStorage.new)).
  apply (f_equal (fun m => option_map User.currentStreak (JS.get "u1" m)))
    in H.
  vm_compute in H. discriminate H.
Qed.

(** C6, amended: [createWorkout] returns the new record, puts it in the
    workouts map, leaves health metrics and scheduled workouts alone, and
    runs the streak update itself: when the owner is a stored user, the
    owner's entry is replaced by the same record with [currentStreak] and
    [longestStreak] recomputed, and nothing else in the users map changes;
    when the owner is not stored the users map is unchanged.  The handler of
    [POST /api/workouts] adds nothing: it is [createWorkout] on the parsed
    body, answered with status 201. *)
Theorem createWorkout_runs_streak_update
    (tz : TimeZone.t) (id : string) (createdAt now : Z) (iw : InsertWorkout.t)
    (s : MemStorage.t) :
  let r := MemStorage.createWorkout tz id createdAt now iw s in
  let owner := InsertWorkout.userId iw in
  let cs :=
    Spec.computedStreak tz (Spec.withWorkout s id createdAt iw) owner now in
  fst r = Spec.workoutOf id createdAt iw /\
  MemStorage.workouts (snd r) =
    JS.set id (Spec.workoutOf id createdAt iw) (MemStorage.workouts s) /\
  MemStorage.healthMetrics (snd r) = MemStorage.healthMetrics s /\
  MemStorage.scheduledWorkouts (snd r) = MemStorage.scheduledWorkouts s /\
  MemStorage.users (snd r) =
    match JS.get owner (MemStorage.users s) with
    | Some u =>
        JS.set owner
          (Spec.withStreak u cs
             (Z.max (JS.orZero (User.longestStreak u)) cs))
          (MemStorage.users s)
    | None => MemStorage.users s
    end /\
  forall reqUser b,
    Routes.postWorkout tz reqUser (Some b) id createdAt now s =
    let workoutData :=
      InsertWorkout.mk reqUser (InsertWorkout.name b) (InsertWorkout.type b)
        (InsertWorkout.duration b) (InsertWorkout.exercises b)
        (InsertWorkout.notes b) in
    (Routes.json 201
       (fst (MemStorage.createWorkout tz id createdAt now workoutData s)),
     snd (MemStorage.createWorkout tz id createdAt now workoutData s)).
Proof.
  cbn zeta.
  destruct (JS.get (InsertWorkout.userId iw) (MemStorage.users s))
    as [u|] eqn:Hu.
  - rewrite (createWorkout_found tz _ _ _ _ _ u Hu). cbn zeta.
    repeat (split; [reflexivity|]).
    intros reqUser b. unfold Routes.postWorkout, MemStorage.bind,
      MemStorage.ret.
    now destruct (MemStorage.createWorkout _ _ _ _ _ _).
  - rewrite (createWorkout_missing tz _ _ _ _ _ Hu).
    repeat (split; [reflexivity|]).
    intros reqUser b. unfold Routes.postWorkout, MemStorage.bind,
      MemStorage.ret.
    now destruct (MemStorage.createWorkout _ _ _ _ _ _).
Qed.

(** C10: [createWorkout] for a [userId] that is not a stored user returns
    the new record, stores it under its identifier, and changes nothing
    else: the streak update finds no user and returns, and the users map is
    what it was. *)
Theorem createWorkout_unknown_user
    (tz : TimeZone.t) (id : string) (createdAt now : Z) (iw : InsertWorkout.t)
    (s : MemStorage.t)
    (Hmissing : JS.get (InsertWorkout.userId iw) (MemStorage.users s) = None) :
  let r := MemStorage.createWorkout tz id createdAt now iw s in
  MemStorage.updateUserStreak tz (InsertWorkout.userId iw) now
    (Spec.withWorkout s id createdAt iw) =
    (tt, Spec.withWorkout s id createdAt iw) /\
  fst r = Spec.workoutOf id createdAt iw /\
  snd r = Spec.withWorkout s id createdAt iw /\
  JS.get id (MemStorage.workouts (snd r)) =
    Some (Spec.workoutOf id createdAt iw) /\
  MemStorage.users (snd r) = MemStorage.users s.
Proof.
  cbn zeta. rewrite (createWorkout_missing tz _ _ _ _ _ Hmissing).
  split; [now apply updateUserStreak_missing|].
  repeat (split; [reflexivity|]). split; [|reflexivity].
  cbn. apply get_set_same.
Qed.

Lemma createWorkout_unknown_user_witness :
  MemStorage.users
    (snd (MemStorage.createWorkout TimeZone.utc "w1" (Example.at_ 10 8)
            (Example.at_ 10 8) (Example.cardio "nobody")
            (Trace.exec TimeZone.utc Example.signUp MemStorage.new))) =
  MemStorage.users (Trace.exec TimeZone.utc Example.signUp MemStorage.new).
Proof.
  apply (createWorkout_unknown_user TimeZone.utc "w1" (Example.at_ 10 8)
           (Example.at_ 10 8) (Example.cardio "nobody")
           (Trace.exec TimeZone.utc Example.signUp MemStorage.new)).
  vm_compute. reflexivity.
Defined.

(* ------------------------------------------------------------------ *)
(** ** Operations that leave the users alone *)

Lemma deleteWorkout_users id s :
  MemStorage.users (snd (MemStorage.deleteWorkout id s)) = MemStorage.users s.
Proof.
  unfold MemStorage.deleteWorkout.
  now destruct (JS.delete id (MemStorage.workouts s)).
Qed.

Lemma deleteWorkoutRoute_users reqUser id s :
  MemStorage.users (snd (Routes.deleteWorkoutRoute reqUser id s)) =
  MemStorage.users s.
Proof.
  unfold Routes.deleteWorkoutRoute, MemStorage.bind, MemStorage.getWorkout,
    MemStorage.gets, MemStorage.ret.
  destruct (JS.get id (MemStorage.workouts s)) as [w|]; [|reflexivity].
  destruct (negb _); [reflexivity|].
  pose proof (deleteWorkout_users id s) as H.
  destruct (MemStorage.deleteWorkout id s) as [[] s']; exact H.
Qed.

(** C9: [deleteWorkout] leaves the users map, and with it every user's
    [currentStreak] and [longestStreak], exactly as it was, whichever
    workout is deleted; so does the handler of [DELETE /api/workouts/:id].
    Deleting today's workout of a two-day streak removes the workout and
    leaves [currentStreak] at 2. *)
Theorem deleteWorkout_keeps_streaks (s : MemStorage.t) (id : string) :
  MemStorage.users (snd (MemStorage.deleteWorkout id s)) = MemStorage.users s
  /\
  (forall reqUser,
      MemStorage.users (snd (Routes.deleteWorkoutRoute reqUser id s)) =
      MemStorage.users s)
  /\
  (forall userId,
      let before := JS.get userId (MemStorage.users s) in
      let after :=
        JS.get userId
          (MemStorage.users (snd (MemStorage.deleteWorkout id s))) in
      option_map User.currentStreak after =
        option_map User.currentStreak before /\
      option_map User.longestStreak after =
        option_map User.longestStreak before)
  /\
  (let s' :=
     snd (Routes.deleteWorkoutRoute "u1" "w2" Example.twoDays) in
   JS.get "w2" (MemStorage.workouts s') = None /\
   option_map User.currentStreak (JS.get "u1" (MemStorage.users s')) =
     Some (Some 2)).
Proof.
  split; [apply deleteWorkout_users|]. split; [|split].
  - intros reqUser. apply deleteWorkoutRoute_users.
  - intros userId. cbn zeta. now rewrite deleteWorkout_users.
  - vm_compute. split; reflexivity.
Qed.

(* ------------------------------------------------------------------ *)
(** ** The dashboard *)

Lemma dashboardStats_store tz reqUser now s :
  snd (Routes.dashboardStats tz reqUser now s) = s.
Proof.
  unfold Routes.dashboardStats, MemStorage.bind, MemStorage.getUser,
    MemStorage.getWorkoutsByUserId, MemStorage.getLatestHealthMetrics,
    MemStorage.getHealthMetricsByUserId, MemStorage.bind, MemStorage.gets,
    MemStorage.ret.
  cbv beta iota zeta.
  destruct (Routes.weightProgressOf _ _ _); reflexivity.
Qed.

(** C8: [GET /api/dashboard/stats] leaves the store, that is every user,
    workout, health-metrics record and scheduled workout, as it was, and a
    second run at the same instant right after the first answers the
    same. *)
Theorem dashboardStats_pure_read
    (tz : TimeZone.t) (s : MemStorage.t) (reqUser : string) (now : Z) :
  let first := Routes.dashboardStats tz reqUser now s in
  let second := Routes.dashboardStats tz reqUser now (snd first) in
  snd first = s /\
  MemStorage.users (snd first) = MemStorage.users s /\
  MemStorage.workouts (snd first) = MemStorage.workouts s /\
  MemStorage.healthMetrics (snd first) = MemStorage.healthMetrics s /\
  MemStorage.scheduledWorkouts (snd first) = MemStorage.scheduledWorkouts s /\
  fst second = fst first /\
  snd second = s.
Proof.
  cbn zeta. rewrite !dashboardStats_store. repeat split; reflexivity.
Qed.

(* ------------------------------------------------------------------ *)
(** ** The streak invariant over sequences of operations *)

Section InvariantFacts.
Import MemStorage.
Variable tz : TimeZone.t.

(** Every stored user satisfies [P]. *)
Local Notation "'allUsers' P s" :=
  (forall userId u, JS.get userId (users s) = Some u -> P u)
  (at level 10, P at level 9, s at level 9).

Lemma get_set_inv {V} (k k' : string) (v v' : V) (m : JS.Map V) :
  JS.get k' (JS.set k v m) = Some v' ->
  (k' = k /\ v' = v) \/ (k' <> k /\ JS.get k' m = Some v').
Proof.
  destruct (String.eqb_spec k' k) as [->|Hne].
  - rewrite get_set_same. intros [= <-]. now left.
  - rewrite get_set_other by exact Hne. now right.
Qed.

Lemma withStreak_invariant u cs :
  Spec.streakInvariant
    (Spec.withStreak u cs (Z.max (JS.orZero (User.longestStreak u)) cs)).
Proof.
  exists cs, (Z.max (JS.orZero (User.longestStreak u)) cs).
  repeat split. lia.
Qed.

Lemma merge_invariant u updates :
  Spec.leavesStreak updates = true ->
  Spec.streakInvariant u -> Spec.streakInvariant (merge u updates).
Proof.
  unfold Spec.leavesStreak. intros Hl (c & l & Hc & Hlg & Hle).
  destruct (PartialUser.currentStreak updates) eqn:E1; [discriminate|].
  destruct (PartialUser.longestStreak updates) eqn:E2; [discriminate|].
  exists c, l. unfold merge. cbn. rewrite E1, E2. cbn. auto.
Qed.

Lemma createUser_invariant id now iu s :
  allUsers Spec.streakInvariant s ->
  allUsers Spec.streakInvariant (snd (createUser id now iu s)).
Proof.
  intros Hs userId u. cbn. intros Hget.
  apply get_set_inv in Hget. destruct Hget as [[_ ->]|[_ Hget]]; eauto.
  exists 0, 0. repeat split. lia.
Qed.

Lemma updateUser_invariant id updates s :
  Spec.leavesStreak updates = true ->
  allUsers Spec.streakInvariant s ->
  allUsers Spec.streakInvariant (snd (updateUser id updates s)).
Proof.
  intros Hl Hs userId u.
  unfold updateUser, bind, gets, modify, ret. cbv beta iota zeta.
  destruct (JS.get id (users s)) as [old|] eqn:Hold; cbn.
  - intros Hget. apply get_set_inv in Hget.
    destruct Hget as [[_ ->]|[_ Hget]]; eauto.
    apply merge_invariant; eauto.
  - apply Hs.
Qed.

Lemma createWorkout_invariant id createdAt now iw s :
  allUsers Spec.streakInvariant s ->
  allUsers Spec.streakInvariant
           (snd (createWorkout tz id createdAt now iw s)).
Proof.
  intros Hs userId u.
  destruct (JS.get (InsertWorkout.userId iw) (users s)) as [o|] eqn:Ho.
  - rewrite (createWorkout_found tz _ _ _ _ _ o Ho). cbn.
    intros Hget. apply get_set_inv in Hget.
    destruct Hget as [[_ ->]|[_ Hget]]; eauto.
    apply withStreak_invariant.
  - rewrite (createWorkout_missing tz _ _ _ _ _ Ho). cbn. apply Hs.
Qed.

Lemma exec_invariant op s :
  Trace.keepsStreak op = true ->
  allUsers Spec.streakInvariant s ->
  allUsers Spec.streakInvariant (Trace.exec tz op s).
Proof.
  intros Hop Hs.
  destruct op; cbn [Trace.exec Trace.keepsStreak] in *.
  - now apply createUser_invariant.
  - now apply updateUser_invariant.
  - unfold Routes.patchProfile, bind, ret.
    pose proof (updateUser_invariant reqUser body s Hop Hs) as H.
    destruct (updateUser reqUser body s) as [r s']. exact H.
  - now apply createWorkout_invariant.
  - destruct body as [b|]; [|exact Hs].
    unfold Routes.postWorkout, bind, ret.
    match goal with
    | |- context [createWorkout tz id createdAt now ?iw s] =>
        pose proof (createWorkout_invariant id createdAt now iw s Hs) as H;
        destruct (createWorkout tz id createdAt now iw s) as [w s']
    end.
    exact H.
  - intros userId u. rewrite deleteWorkout_users. apply Hs.
  - intros userId u. rewrite deleteWorkoutRoute_users. apply Hs.
  - exact Hs.
  - exact Hs.
  - intros userId u. unfold deleteScheduledWorkout.
    destruct (JS.delete id (scheduledWorkouts s)). apply Hs.
  - intros userId u. rewrite dashboardStats_store. apply Hs.
Qed.

Lemma run_invariant ops :
  forall s,
    forallb Trace.keepsStreak ops = true ->
    allUsers Spec.streakInvariant s ->
    allUsers Spec.streakInvariant (Trace.run tz ops s).
Proof.
  unfold Trace.run.
  induction ops as [|op ops IH]; intros s Hops Hs; cbn [fold_left].
  - exact Hs.
  - cbn [forallb] in Hops. apply andb_prop in Hops.
    destruct Hops as [Hop Hops].
    apply IH; [exact Hops|]. now apply exec_invariant.
Qed.
End InvariantFacts.

(** C4 as stated fails: a profile update whose body carries
    [currentStreak: 5] is merged into the stored user as it is, and leaves
    [currentStreak = 5] above [longestStreak = 0]. *)
Lemma profile_update_overwrites_streak :
  ~ (forall tz ops userId u,
        JS.get userId (MemStorage.users (Trace.run tz ops MemStorage.new))
          = Some u ->
        Spec.streakInvariant u).
Proof.
  intros H.
  destruct (JS.get "u1"
              (MemStorage.users
                 (Trace.run TimeZone.utc [Example.signUp;
                               Trace.PatchProfile "u1" Example.forgedStreak]
                    MemStorage.new))) as [u|] eqn:Hu; [|discriminate Hu].
  destruct (H TimeZone.utc _ "u1"%string u Hu) as (c & l & Hc & Hl & Hle).
  vm_compute in Hu. injection Hu as <-.
  cbn in Hc, Hl. injection Hc as <-. injection Hl as <-. lia.
Qed.

(** C4, amended: starting from the empty store, after any sequence of
    operations (user creation, workout insertion with its streak update,
    deletions, metric and schedule insertions, dashboard reads, and user
    updates, through [updateUser] or [PATCH /api/user/profile], that carry
    neither [currentStreak] nor [longestStreak]) every stored user has both
    streak fields set and [longestStreak >= currentStreak]. *)
Theorem streak_invariant_preserved
    (tz : TimeZone.t) (ops : list Trace.Op)
    (Hops : forallb Trace.keepsStreak ops = true)
    (userId : string) (u : User.t)
    (Hget : JS.get userId
              (MemStorage.users (Trace.run tz ops MemStorage.new)) = Some u) :
  Spec.streakInvariant u.
Proof.
  eapply (run_invariant tz ops MemStorage.new Hops); [|exact Hget].
  intros k v Hk. discriminate Hk.
Qed.

Lemma streak_invariant_preserved_witness :
  exists u,
    JS.get "u1"
      (MemStorage.users
         (Trace.run TimeZone.utc
            [Example.signUp;
             Trace.PatchProfile "u1" Example.newTarget;
             Trace.PostWorkout "u1" (Some (Example.cardio "")) "w1"
               (Example.at_ 3 7) (Example.at_ 3 7)]
            MemStorage.new)) = Some u /\
    Spec.streakInvariant u.
Proof.
  match goal with
  | |- exists u, ?g = Some u /\ _ => destruct g as [u|] eqn:Hu
  end; [|discriminate Hu].
  exists u. split; [reflexivity|].
  apply (streak_invariant_preserved TimeZone.utc
           [Example.signUp;
            Trace.PatchProfile "u1" Example.newTarget;
            Trace.PostWorkout "u1" (Some (Example.cardio "")) "w1"
              (Example.at_ 3 7) (Example.at_ 3 7)]
           eq_refl "u1" u Hu).
Defined.

(* ------------------------------------------------------------------ *)
(** ** Weight progress *)

Section NewestFirst.
Context {A : Type} (key : A -> Z).
Local Notation "'newestFirst'" :=
  (StronglySorted (fun a b => key b <= key a)).

Lemma newestFirst_head x l y :
  newestFirst (x :: l) -> In y (x :: l) -> key y <= key x.
Proof.
  intros Hs Hy. apply StronglySorted_inv in Hs. destruct Hs as [_ Hall].
  destruct Hy as [<-|Hy]; [lia|].
  rewrite Forall_forall in Hall. now apply Hall.
Qed.

End NewestFirst.



Section WeightProgressFacts.
Import MemStorage.


Lemma weightProgressOf_some u cw latestMetrics l :
  User.currentWeight u = Some cw ->
  JS.truthy (Some cw) = true ->
  (2 <= List.length l)%nat ->
  exists oldest,
    nth_error l (pred (List.length l)) = Some oldest /\
    Routes.weightProgressOf (Some u) latestMetrics l =
    Some (Routes.orElse (Routes.weightOf latestMetrics) cw
          - Routes.orElse (HealthMetrics.weight oldest) cw)%float.
Proof.
  intros Hcw Ht Hlen.
  destruct (nth_error l (pred (List.length l))) as [o|] eqn:Ho.
  - exists o. split; [reflexivity|].
    unfold Routes.weightProgressOf, JS.index. rewrite Hcw, Ht.
    destruct (Z.leb_spec 2 (Z.of_nat (List.length l))); [|lia].
    destruct (Z.ltb_spec (Z.of_nat (List.length l) - 1) 0); [lia|].
    replace (Z.to_nat (Z.of_nat (List.length l) - 1))
      with (pred (List.length l)) by lia.
    rewrite Ho. reflexivity.
  - apply nth_error_None in Ho. lia.
Qed.


End WeightProgressFacts.



(* ------------------------------------------------------------------ *)
(** ** More facts about maps *)

Section MapFacts2.
Context {V : Type}.
Implicit Types (m : JS.Map V) (k : string) (v : V).

Lemma get_In_values k v m : JS.get k m = Some v -> In v (JS.values m).
Proof.
  unfold JS.values.
  induction m as [|[k' v'] m IH]; cbn; [discriminate|].
  destruct (String.eqb k k'); [intros [= ->]; now left | auto].
Qed.

Lemma get_None_keys k m : JS.get k m = None <-> ~ In k (map fst m).
Proof.
  induction m as [|[k' v'] m IH]; cbn; [tauto|].
  destruct (String.eqb_spec k k') as [->|Hne].
  - split; [discriminate | intros H; exfalso; apply H; now left].
  - rewrite IH. split; [intros H [E|E]; congruence | tauto].
Qed.

Lemma In_values_get v m :
  In v (JS.values m) -> exists k, In (k, v) m.
Proof.
  unfold JS.values. intros H. apply in_map_iff in H.
  destruct H as [[k v'] [E H]]. cbn in E. subst. eauto.
Qed.

Lemma In_get k v m :
  Spec.uniqueKeys m -> In (k, v) m -> JS.get k m = Some v.
Proof.
  unfold Spec.uniqueKeys.
  induction m as [|[k' v'] m IH]; cbn; [tauto|].
  intros Hnd [E|Hin].
  - injection E as -> ->. now rewrite String.eqb_refl.
  - apply NoDup_cons_iff in Hnd. destruct Hnd as [Hk Hnd].
    destruct (String.eqb_spec k k') as [->|Hne]; [|auto].
    exfalso. apply Hk. apply in_map_iff. exists (k', v). auto.
Qed.

Lemma keys_set k v m :
  map fst (JS.set k v m) =
  match JS.get k m with
  | Some _ => map fst m
  | None => map fst m ++ [k]
  end.
Proof.
  induction m as [|[k' v'] m IH]; cbn; auto.
  destruct (String.eqb_spec k k') as [->|Hne]; cbn; auto.
  rewrite IH. now destruct (JS.get k m).
Qed.

Lemma uniqueKeys_set k v m :
  Spec.uniqueKeys m -> Spec.uniqueKeys (JS.set k v m).
Proof.
  unfold Spec.uniqueKeys. intros H. rewrite keys_set.
  destruct (JS.get k m) eqn:E; auto.
  apply get_None_keys in E.
  apply NoDup_incl_NoDup with (l := k :: map fst m).
  - now constructor.
  - rewrite length_app. cbn. lia.
  - intros x Hx. apply in_or_app. cbn in *. tauto.
Qed.

Lemma In_values_set v' k v m :
  In v' (JS.values (JS.set k v m)) -> v' = v \/ In v' (JS.values m).
Proof.
  unfold JS.values.
  induction m as [|[k0 v0] m IH]; cbn.
  - intros [<-|[]]. now left.
  - destruct (String.eqb k k0); cbn.
    + intros [<-|H]; auto.
    + intros [<-|H]; auto. destruct (IH H); auto.
Qed.

Lemma values_set_In k v m : In v (JS.values (JS.set k v m)).
Proof. eapply get_In_values. apply get_set_same. Qed.


Lemma set_set k v v' m : JS.set k v (JS.set k v' m) = JS.set k v m.
Proof.
  induction m as [|[k0 v0] m IH]; cbn.
  - now rewrite String.eqb_refl.
  - destruct (String.eqb k k0) eqn:E; cbn.
    + now rewrite String.eqb_refl.
    + now rewrite E, IH.
Qed.

Lemma delete_found k m :
  fst (JS.delete k m) =
  match JS.get k m with Some _ => true | None => false end.
Proof.
  induction m as [|[k' v'] m IH]; cbn; auto.
  destruct (String.eqb k k'); auto.
  destruct (JS.delete k m). exact IH.
Qed.

Lemma delete_absent k m : JS.get k m = None -> JS.delete k m = (false, m).
Proof.
  induction m as [|[k' v'] m IH]; cbn; auto.
  destruct (String.eqb k k'); [discriminate|].
  intros H. now rewrite IH.
Qed.

Lemma get_delete_other k k' m :
  k' <> k -> JS.get k' (snd (JS.delete k m)) = JS.get k' m.
Proof.
  intros Hne. induction m as [|[k0 v0] m IH]; cbn; auto.
  destruct (String.eqb_spec k k0) as [->|Hk]; cbn.
  - destruct (String.eqb_spec k' k0); congruence.
  - destruct (JS.delete k m) as [b r]. cbn in *. now rewrite IH.
Qed.

Lemma keys_delete_incl k m x :
  In x (map fst (snd (JS.delete k m))) ->
  In x (map fst m) /\ (Spec.uniqueKeys m -> x <> k).
Proof.
  unfold Spec.uniqueKeys.
  induction m as [|[k0 v0] m IH]; cbn; [tauto|].
  destruct (String.eqb_spec k k0) as [->|Hk]; cbn.
  - intros H. split; [auto|]. intros Hnd ->.
    apply NoDup_cons_iff in Hnd. tauto.
  - destruct (JS.delete k m) as [b r]. cbn in *.
    intros [<-|H]; [split; auto|].
    destruct (IH H) as [H1 H2]. split; [auto|].
    intros Hnd. apply H2. now apply NoDup_cons_iff in Hnd.
Qed.

Lemma get_delete_same k m :
  Spec.uniqueKeys m -> JS.get k (snd (JS.delete k m)) = None.
Proof.
  intros Hnd. apply get_None_keys. intros H.
  apply keys_delete_incl in H. destruct H as [_ H]. now apply H.
Qed.

Lemma uniqueKeys_delete k m :
  Spec.uniqueKeys m -> Spec.uniqueKeys (snd (JS.delete k m)).
Proof.
  unfold Spec.uniqueKeys.
  induction m as [|[k0 v0] m IH]; cbn; auto.
  intros Hnd. apply NoDup_cons_iff in Hnd. destruct Hnd as [Hk Hnd].
  destruct (String.eqb k k0); cbn; auto.
  specialize (IH Hnd).
  pose proof (fun x => keys_delete_incl k m x) as Hincl.
  destruct (JS.delete k m) as [b r]. cbn in *.
  constructor; auto. intros H. apply Hincl in H. tauto.
Qed.

Lemma values_delete_incl k m v :
  In v (JS.values (snd (JS.delete k m))) -> In v (JS.values m).
Proof.
  unfold JS.values.
  induction m as [|[k0 v0] m IH]; cbn; auto.
  destruct (String.eqb k k0); cbn; auto.
  destruct (JS.delete k m) as [b r]. cbn in *.
  intros [<-|H]; auto.
Qed.
End MapFacts2.

(* ------------------------------------------------------------------ *)
(** ** Insertion, lookup and deletion *)

Section StoreFacts.
Import MemStorage.

Lemma updateUserStreak_frame tz userId now s :
  let s' := snd (updateUserStreak tz userId now s) in
  workouts s' = workouts s /\ healthMetrics s' = healthMetrics s /\
  scheduledWorkouts s' = scheduledWorkouts s.
Proof.
  cbn zeta. destruct (JS.get userId (users s)) as [u|] eqn:Hu.
  - rewrite (updateUserStreak_found tz s userId now u Hu). cbn. auto.
  - rewrite (updateUserStreak_missing tz s userId now Hu). cbn. auto.
Qed.

Lemma createWorkout_frame tz id createdAt now iw s :
  let s' := snd (createWorkout tz id createdAt now iw s) in
  workouts s' = JS.set id (Spec.workoutOf id createdAt iw) (workouts s) /\
  healthMetrics s' = healthMetrics s /\
  scheduledWorkouts s' = scheduledWorkouts s.
Proof.
  cbn zeta. rewrite createWorkout_unfold. cbn [snd].
  destruct (updateUserStreak_frame tz (InsertWorkout.userId iw) now
              (Spec.withWorkout s id createdAt iw)) as (-> & -> & ->).
  cbn. auto.
Qed.
End StoreFacts.

(** X1: a record is found under the identifier it was created with, as the
    value the create method returned: [createUser] then [getUser],
    [createWorkout] then [getWorkout], [createScheduledWorkout] then
    [getScheduledWorkout]; a new user starts with both streaks at 0 and a
    new scheduled workout with [completed = 0]; and a lookup under any other
    identifier answers what it answered before the creation. *)
Theorem created_records_are_found
    (tz : TimeZone.t) (s : MemStorage.t) (id other : string) (now createdAt : Z)
    (iu : InsertUser.t) (iw : InsertWorkout.t)
    (isw : InsertScheduledWorkout.t)
    (Hother : other <> id) :
  (let r := MemStorage.createUser id now iu s in
   fst (MemStorage.getUser id (snd r)) = Some (fst r) /\
   User.currentStreak (fst r) = Some 0 /\
   User.longestStreak (fst r) = Some 0 /\
   fst (MemStorage.getUser other (snd r)) = fst (MemStorage.getUser other s))
  /\
  (let r := MemStorage.createWorkout tz id createdAt now iw s in
   fst (MemStorage.getWorkout id (snd r)) = Some (fst r) /\
   Workout.createdAt (fst r) = createdAt /\
   fst (MemStorage.getWorkout other (snd r)) =
     fst (MemStorage.getWorkout other s))
  /\
  (let r := MemStorage.createScheduledWorkout id now isw s in
   fst (MemStorage.getScheduledWorkout id (snd r)) = Some (fst r) /\
   ScheduledWorkout.completed (fst r) = Some 0 /\
   fst (MemStorage.getScheduledWorkout other (snd r)) =
     fst (MemStorage.getScheduledWorkout other s)).
Proof.
  split; [|split]; cbn zeta.
  - cbn. rewrite get_set_same, get_set_other by exact Hother. auto.
  - destruct (createWorkout_frame tz id createdAt now iw s) as (Hw & _).
    unfold MemStorage.getWorkout, MemStorage.gets. cbn [fst].
    rewrite Hw, get_set_same, get_set_other by exact Hother.
    rewrite createWorkout_unfold. cbn. auto.
  - cbn. rewrite get_set_same, get_set_other by exact Hother. auto.
Qed.

Lemma created_records_are_found_witness :
  fst (MemStorage.getWorkout "w1"
         (snd (MemStorage.createWorkout TimeZone.utc "w9" (Example.at_ 11 7)
                 (Example.at_ 11 7) (Example.cardio "u1")
                 Example.twoUsers))) =
  fst (MemStorage.getWorkout "w1" Example.twoUsers).
Proof.
  apply (created_records_are_found TimeZone.utc Example.twoUsers "w9" "w1"
           (Example.at_ 11 7) (Example.at_ 11 7) Example.alice
           (Example.cardio "u1") (Example.legDay "u1")).
  discriminate.
Defined.

(** X2: in a store whose maps hold each key once, [deleteWorkout] answers
    [true] exactly when the identifier was stored; afterwards [getWorkout]
    finds nothing under it, every other identifier is found as before, and
    users, health metrics and scheduled workouts are untouched.  The same
    holds for [deleteScheduledWorkout] on the scheduled workouts. *)
Theorem delete_removes_exactly_one
    (s : MemStorage.t) (id : string) (Hwf : Spec.wellFormed s) :
  (let r := MemStorage.deleteWorkout id s in
   fst r = match JS.get id (MemStorage.workouts s) with
           | Some _ => true
           | None => false
           end /\
   fst (MemStorage.getWorkout id (snd r)) = None /\
   (forall other, other <> id ->
      fst (MemStorage.getWorkout other (snd r)) =
      fst (MemStorage.getWorkout other s)) /\
   MemStorage.users (snd r) = MemStorage.users s /\
   MemStorage.healthMetrics (snd r) = MemStorage.healthMetrics s /\
   MemStorage.scheduledWorkouts (snd r) = MemStorage.scheduledWorkouts s)
  /\
  (let r := MemStorage.deleteScheduledWorkout id s in
   fst r = match JS.get id (MemStorage.scheduledWorkouts s) with
           | Some _ => true
           | None => false
           end /\
   fst (MemStorage.getScheduledWorkout id (snd r)) = None /\
   (forall other, other <> id ->
      fst (MemStorage.getScheduledWorkout other (snd r)) =
      fst (MemStorage.getScheduledWorkout other s)) /\
   MemStorage.users (snd r) = MemStorage.users s /\
   MemStorage.workouts (snd r) = MemStorage.workouts s /\
   MemStorage.healthMetrics (snd r) = MemStorage.healthMetrics s).
Proof.
  destruct Hwf as (_ & Hw & _ & Hsw).
  split; cbn zeta.
  - unfold MemStorage.deleteWorkout, MemStorage.getWorkout, MemStorage.gets.
    pose proof (delete_found id (MemStorage.workouts s)) as Hf.
    pose proof (get_delete_same id (MemStorage.workouts s) Hw) as Hg.
    pose proof (fun o => @get_delete_other _ id o (MemStorage.workouts s))
      as Ho.
    destruct (JS.delete id (MemStorage.workouts s)) as [b m]. cbn in *.
    repeat split; auto.
  - unfold MemStorage.deleteScheduledWorkout, MemStorage.getScheduledWorkout,
      MemStorage.gets.
    pose proof (delete_found id (MemStorage.scheduledWorkouts s)) as Hf.
    pose proof (get_delete_same id (MemStorage.scheduledWorkouts s) Hsw)
      as Hg.
    pose proof (fun o =>
                  @get_delete_other _ id o (MemStorage.scheduledWorkouts s))
      as Ho.
    destruct (JS.delete id (MemStorage.scheduledWorkouts s)) as [b m].
    cbn in *. repeat split; auto.
Qed.

Lemma twoUsers_wellFormed : Spec.wellFormed Example.twoUsers.
Proof.
  unfold Spec.wellFormed, Spec.uniqueKeys. vm_compute.
  repeat split; repeat constructor; cbn; intuition discriminate.
Defined.

Lemma delete_removes_exactly_one_witness :
  fst (MemStorage.deleteWorkout "w1" Example.twoUsers) = true /\
  fst (MemStorage.getWorkout "w1"
         (snd (MemStorage.deleteWorkout "w1" Example.twoUsers))) = None.
Proof.
  destruct (delete_removes_exactly_one Example.twoUsers "w1"
              twoUsers_wellFormed) as [(H1 & H2 & _) _].
  split; [rewrite H1; vm_compute; reflexivity | exact H2].
Defined.

(* ------------------------------------------------------------------ *)
(** ** Looking a user up by name *)

Lemma find_snoc {A} (f : A -> bool) (l : list A) (x : A) :
  find f (l ++ [x]) =
  match find f l with
  | Some y => Some y
  | None => if f x then Some x else None
  end.
Proof.
  induction l as [|a l IH]; cbn; [reflexivity|].
  destruct (f a); auto.
Qed.

(** X3: [getUserByUsername] answers a stored user with that username when
    there is one and [undefined] only when no stored user has it;
    [getUserByEmail] does the same for the e-mail address.  Neither changes
    the store. *)
Theorem user_lookup_by_name_or_email (s : MemStorage.t) (key : string) :
  (snd (MemStorage.getUserByUsername key s) = s /\
   match fst (MemStorage.getUserByUsername key s) with
   | Some u => User.username u = key /\ In u (JS.values (MemStorage.users s))
   | None =>
       forall u, In u (JS.values (MemStorage.users s)) ->
                 User.username u <> key
   end)
  /\
  (snd (MemStorage.getUserByEmail key s) = s /\
   match fst (MemStorage.getUserByEmail key s) with
   | Some u => User.email u = key /\ In u (JS.values (MemStorage.users s))
   | None =>
       forall u, In u (JS.values (MemStorage.users s)) -> User.email u <> key
   end).
Proof.
  split; (split; [reflexivity|]); cbn [fst MemStorage.getUserByUsername
    MemStorage.getUserByEmail MemStorage.gets].
  - destruct (find _ _) as [u|] eqn:E.
    + apply find_some in E. destruct E as [Hin E].
      apply String.eqb_eq in E. auto.
    + intros u Hin Hk. pose proof (find_none _ _ E u Hin) as H.
      cbn in H. apply String.eqb_neq in H. auto.
  - destruct (find _ _) as [u|] eqn:E.
    + apply find_some in E. destruct E as [Hin E].
      apply String.eqb_eq in E. auto.
    + intros u Hin Hk. pose proof (find_none _ _ E u Hin) as H.
      cbn in H. apply String.eqb_neq in H. auto.
Qed.

(** X4: [createUser] does not check for a taken name.  After creating a
    user under a new identifier, a lookup by username still answers the user
    it answered before when there was one (the earliest registered user with
    that name wins); otherwise it answers the new user exactly when the new
    user carries the name.  The same holds for the lookup by e-mail. *)
Theorem lookup_after_createUser
    (s : MemStorage.t) (id : string) (now : Z) (iu : InsertUser.t)
    (key : string)
    (Hfresh : JS.get id (MemStorage.users s) = None) :
  let r := MemStorage.createUser id now iu s in
  fst (MemStorage.getUserByUsername key (snd r)) =
    match fst (MemStorage.getUserByUsername key s) with
    | Some u => Some u
    | None =>
        if String.eqb (InsertUser.username iu) key then Some (fst r) else None
    end
  /\
  fst (MemStorage.getUserByEmail key (snd r)) =
    match fst (MemStorage.getUserByEmail key s) with
    | Some u => Some u
    | None =>
        if String.eqb (InsertUser.email iu) key then Some (fst r) else None
    end.
Proof.
  unfold MemStorage.createUser, MemStorage.getUserByUsername,
    MemStorage.getUserByEmail, MemStorage.bind, MemStorage.modify,
    MemStorage.ret, MemStorage.gets, MemStorage.set_users.
  cbn [fst snd MemStorage.users].
  rewrite (values_set_fresh _ _ _ Hfresh), !find_snoc.
  cbn [User.username User.email]. auto.
Qed.

Lemma lookup_after_createUser_witness :
  fst (MemStorage.getUserByUsername "alice"
         (snd (MemStorage.createUser "u3" (Example.at_ 3 9) Example.alice
                 Example.twoUsers))) =
  fst (MemStorage.getUserByUsername "alice" Example.twoUsers).
Proof.
  rewrite (proj1 (lookup_after_createUser Example.twoUsers "u3"
                    (Example.at_ 3 9) Example.alice "alice" eq_refl)).
  vm_compute. reflexivity.
Defined.

(* ------------------------------------------------------------------ *)
(** ** Users are independent *)

Lemma filter_snoc {A} (p : A -> bool) (l : list A) (x : A) :
  filter p (l ++ [x]) = filter p l ++ (if p x then [x] else []).
Proof. rewrite filter_app. reflexivity. Qed.

Lemma dashboardStats_depends tz reqUser now s s' :
  JS.get reqUser (MemStorage.users s') = JS.get reqUser (MemStorage.users s) ->
  Spec.workoutsOf s' reqUser = Spec.workoutsOf s reqUser ->
  Spec.metricsOf s' reqUser = Spec.metricsOf s reqUser ->
  fst (Routes.dashboardStats tz reqUser now s') =
  fst (Routes.dashboardStats tz reqUser now s).
Proof.
  intros Hu Hw Hm.
  unfold Routes.dashboardStats, MemStorage.bind, MemStorage.getUser,
    MemStorage.getWorkoutsByUserId, MemStorage.getLatestHealthMetrics,
    MemStorage.getHealthMetricsByUserId, MemStorage.bind, MemStorage.gets,
    MemStorage.ret.
  cbv beta iota zeta.
  unfold Spec.workoutsOf, Spec.metricsOf in Hw, Hm.
  rewrite Hu, Hw, Hm.
  now destruct (Routes.weightProgressOf _ _ _).
Qed.

(** X5: a workout created under a new identifier changes nothing that
    another user sees: for every user other than the owner, the stored user
    record, the workout listing, the health-metrics and scheduled-workout
    listings and the dashboard answer are what they were. *)
Theorem createWorkout_leaves_other_users
    (tz : TimeZone.t) (s : MemStorage.t) (id : string) (createdAt now : Z)
    (iw : InsertWorkout.t) (other : string) (later : Z)
    (Hfresh : JS.get id (MemStorage.workouts s) = None)
    (Hother : other <> InsertWorkout.userId iw) :
  let s' := snd (MemStorage.createWorkout tz id createdAt now iw s) in
  fst (MemStorage.getUser other s') = fst (MemStorage.getUser other s) /\
  fst (MemStorage.getWorkoutsByUserId other s') =
    fst (MemStorage.getWorkoutsByUserId other s) /\
  fst (MemStorage.getHealthMetricsByUserId other s') =
    fst (MemStorage.getHealthMetricsByUserId other s) /\
  fst (MemStorage.getScheduledWorkoutsByUserId other s') =
    fst (MemStorage.getScheduledWorkoutsByUserId other s) /\
  fst (Routes.dashboardStats tz other later s') =
    fst (Routes.dashboardStats tz other later s).
Proof.
  cbn zeta.
  destruct (createWorkout_frame tz id createdAt now iw s) as (Hw & Hm & Hsw).
  set (s' := snd (MemStorage.createWorkout tz id createdAt now iw s)) in *.
  assert (Hu : JS.get other (MemStorage.users s') =
               JS.get other (MemStorage.users s)).
  { subst s'.
    destruct (JS.get (InsertWorkout.userId iw) (MemStorage.users s))
      as [u|] eqn:Hu.
    - rewrite (createWorkout_found tz _ _ _ _ _ u Hu). cbn.
      now rewrite get_set_other.
    - now rewrite (createWorkout_missing tz _ _ _ _ _ Hu). }
  assert (Hl : Spec.workoutsOf s' other = Spec.workoutsOf s other).
  { unfold Spec.workoutsOf. rewrite Hw, (values_set_fresh _ _ _ Hfresh).
    rewrite filter_snoc. cbn.
    destruct (String.eqb_spec (InsertWorkout.userId iw) other);
      [congruence|]. apply app_nil_r. }
  split; [exact Hu|]. split.
  { unfold MemStorage.getWorkoutsByUserId, MemStorage.gets. cbn [fst].
    unfold Spec.workoutsOf in Hl. now rewrite Hl. }
  split.
  { unfold MemStorage.getHealthMetricsByUserId, MemStorage.gets. cbn [fst].
    now rewrite Hm. }
  split.
  { unfold MemStorage.getScheduledWorkoutsByUserId, MemStorage.gets.
    cbn [fst]. now rewrite Hsw. }
  apply dashboardStats_depends; auto.
  unfold Spec.metricsOf. now rewrite Hm.
Qed.

Lemma createWorkout_leaves_other_users_witness :
  fst (Routes.dashboardStats TimeZone.utc "u2" (Example.at_ 11 9)
         (snd (MemStorage.createWorkout TimeZone.utc "w9" (Example.at_ 11 7)
                 (Example.at_ 11 7) (Example.cardio "u1")
                 Example.twoUsers))) =
  fst (Routes.dashboardStats TimeZone.utc "u2" (Example.at_ 11 9)
         Example.twoUsers).
Proof.
  apply (createWorkout_leaves_other_users TimeZone.utc Example.twoUsers "w9"
           (Example.at_ 11 7) (Example.at_ 11 7) (Example.cardio "u1")
           "u2" (Example.at_ 11 9)).
  - vm_compute. reflexivity.
  - discriminate.
Defined.

(* ------------------------------------------------------------------ *)
(** ** Bounds on the streak *)

Section StreakBounds.
Import MemStorage.
Variable tz : TimeZone.t.

(** The loop adds between 0 and [length rest] to the counter, and every
    offset it counted is the offset of some workout. *)
Lemma streakLoop_bounds today :
  forall rest i acc,
    let r := streakLoop tz today i rest acc - acc in
    0 <= r <= Z.of_nat (List.length rest) /\
    forall k, i <= k < i + r -> In k (map (daysDiff tz today) rest).
Proof.
  induction rest as [|w rest IH]; intros i acc; cbn zeta;
    cbn [streakLoop List.length map].
  - split; [lia|]. intros k Hk. lia.
  - destruct (Z.eqb_spec (daysDiff tz today w) i) as [E|E].
    + destruct (IH (i + 1) (acc + 1)) as [Hr Hin]. cbn zeta in *.
      split; [lia|].
      intros k Hk. destruct (Z.eq_dec k i) as [->|Hne]; [now left|].
      right. apply Hin. lia.
    + split; [lia|]. intros k Hk. lia.
Qed.

Lemma consecutiveActiveDays_nonneg ws day fuel :
  0 <= Spec.consecutiveActiveDays tz ws day fuel.
Proof.
  revert day.
  induction fuel as [|fuel IH]; intros day;
    cbn [Spec.consecutiveActiveDays]; [lia|].
  destruct (Spec.activeDay tz ws day); [|lia].
  specialize (IH (day - 1)). lia.
Qed.

Lemma consecutiveActiveDays_lower ws (n : nat) :
  forall fuel day,
    (n <= fuel)%nat ->
    (forall k, 0 <= k < Z.of_nat n ->
               Spec.activeDay tz ws (day - k) = true) ->
    Z.of_nat n <= Spec.consecutiveActiveDays tz ws day fuel.
Proof.
  induction n as [|n IH]; intros fuel day Hle Hact.
  - apply consecutiveActiveDays_nonneg.
  - destruct fuel as [|fuel]; [lia|]. cbn [Spec.consecutiveActiveDays].
    pose proof (Hact 0 ltac:(lia)) as H0. rewrite Z.sub_0_r in H0.
    rewrite H0.
    specialize (IH fuel (day - 1) ltac:(lia)).
    assert (Z.of_nat n <= Spec.consecutiveActiveDays tz ws (day - 1) fuel).
    { apply IH. intros k Hk.
      replace (day - 1 - k) with (day - (k + 1)) by lia.
      apply Hact. lia. }
    lia.
Qed.

Lemma computedStreak_range s userId now :
  0 <= Spec.computedStreak tz s userId now
    <= Z.of_nat (List.length (Spec.workoutsOf s userId)).
Proof.
  unfold Spec.computedStreak.
  destruct (sortedWorkouts_spec s userId) as [Hperm _].
  set (l := JS.sort byCreatedAtDesc (fst (getWorkoutsByUserId userId s)))
    in *.
  destruct (streakLoop_bounds (startOfDay tz now) l 0 0) as [Hr _].
  cbn zeta in Hr. rewrite Z.sub_0_r in Hr.
  now rewrite <- (Permutation_length Hperm) in Hr.
Qed.
End StreakBounds.

(** With a fixed offset every day the loop counted is an active day. *)
Lemma computedStreak_le_active off s userId now :
  Spec.computedStreak (TimeZone.fixed off) s userId now <=
  Spec.streakOverActiveDays (TimeZone.fixed off) (Spec.workoutsOf s userId)
    now.
Proof.
  pose proof (computedStreak_range (TimeZone.fixed off) s userId now) as Hr.
  unfold Spec.computedStreak in *.
  destruct (sortedWorkouts_spec s userId) as [Hperm _].
  set (l := JS.sort MemStorage.byCreatedAtDesc
              (fst (MemStorage.getWorkoutsByUserId userId s))) in *.
  destruct (streakLoop_bounds (TimeZone.fixed off)
              (MemStorage.startOfDay (TimeZone.fixed off) now) l 0 0)
    as [_ Hin].
  cbn zeta in Hin. rewrite Z.sub_0_r in Hin.
  set (cs := MemStorage.streakLoop (TimeZone.fixed off)
               (MemStorage.startOfDay (TimeZone.fixed off) now) 0 l 0) in *.
  unfold Spec.streakOverActiveDays.
  rewrite <- (Z2Nat.id cs) at 1 by lia.
  apply consecutiveActiveDays_lower; [lia|].
  intros k Hk. rewrite Z2Nat.id in Hk by lia.
  specialize (Hin k ltac:(lia)). apply in_map_iff in Hin.
  destruct Hin as [w [Hw Hin]]. rewrite daysDiff_dayOf in Hw.
  apply (Permutation_in _ (Permutation_sym Hperm)) in Hin.
  unfold Spec.activeDay. apply existsb_exists. exists w.
  split; [exact Hin|]. apply Z.eqb_eq. lia.
Qed.

(** X6: in any zone the streak that [updateUserStreak] stores lies between
    0 and the number of the user's workouts; on a server whose zone has a
    fixed offset it never overstates: it is at most the streak over the
    user's distinct active days. *)
Theorem stored_streak_never_overstates
    (tz : TimeZone.t) (s : MemStorage.t) (userId : string) (now : Z)
    (u : User.t)
    (Hu : JS.get userId (MemStorage.users s) = Some u) :
  exists u' cs,
    JS.get userId
      (MemStorage.users (snd (MemStorage.updateUserStreak tz userId now s)))
      = Some u' /\
    User.currentStreak u' = Some cs /\
    0 <= cs <= Z.of_nat (List.length (Spec.workoutsOf s userId)) /\
    (forall off,
        tz = TimeZone.fixed off ->
        cs <= Spec.streakOverActiveDays tz (Spec.workoutsOf s userId) now).
Proof.
  rewrite (updateUserStreak_found tz s userId now u Hu).
  cbn [snd MemStorage.set_users MemStorage.users]. rewrite get_set_same.
  eexists. exists (Spec.computedStreak tz s userId now).
  split; [reflexivity|]. split; [reflexivity|].
  split; [apply computedStreak_range|].
  intros off ->. apply computedStreak_le_active.
Qed.

Lemma stored_streak_never_overstates_witness :
  exists u' cs,
    JS.get "u1"
      (MemStorage.users
         (snd (MemStorage.updateUserStreak TimeZone.utc "u1" (Example.at_ 10 20)
                 Example.twoDaysTwice))) = Some u' /\
    User.currentStreak u' = Some cs /\
    cs <= 2.
Proof.
  destruct (JS.get "u1" (MemStorage.users Example.twoDaysTwice))
    as [u|] eqn:Hu; [|discriminate Hu].
  destruct (stored_streak_never_overstates TimeZone.utc
              Example.twoDaysTwice "u1" (Example.at_ 10 20) u Hu)
    as (u' & cs & H1 & H2 & _ & H3).
  exists u', cs. split; [exact H1|]. split; [exact H2|].
  specialize (H3 0 eq_refl). vm_compute in H3. exact H3.
Defined.

(** X7: when the new workout is dated today and none of the owner's stored
    workouts is dated after today, [createWorkout] leaves the owner with
    [currentStreak >= 1] and [longestStreak >= 1].  This holds in every
    zone whose local dates never go backwards, with or without
    daylight-saving time: workouts of one local date share one local
    midnight. *)
Theorem workout_today_starts_a_streak
    (tz : TimeZone.t) (s : MemStorage.t) (id : string) (createdAt now : Z)
    (iw : InsertWorkout.t) (u : User.t)
    (Hzone : Spec.datesNeverGoBack tz)
    (Hu : JS.get (InsertWorkout.userId iw) (MemStorage.users s) = Some u)
    (Htoday : Spec.dayOf tz createdAt = Spec.dayOf tz now)
    (Hpast : forall w, In w (Spec.workoutsOf s (InsertWorkout.userId iw)) ->
                       Spec.dayOf tz (Workout.createdAt w)
                       <= Spec.dayOf tz now) :
  exists u' cs longest,
    JS.get (InsertWorkout.userId iw)
      (MemStorage.users
         (snd (MemStorage.createWorkout tz id createdAt now iw s)))
      = Some u' /\
    User.currentStreak u' = Some cs /\ 1 <= cs /\
    User.longestStreak u' = Some longest /\ 1 <= longest.
Proof.
  rewrite (createWorkout_found tz _ _ _ _ _ u Hu). cbn zeta.
  cbn [snd MemStorage.set_users MemStorage.users]. rewrite get_set_same.
  set (s1 := Spec.withWorkout s id createdAt iw).
  set (owner := InsertWorkout.userId iw) in *.
  assert (Hcs : 1 <= Spec.computedStreak tz s1 owner now).
  { unfold Spec.computedStreak.
    destruct (sortedWorkouts_spec s1 owner) as [Hperm Hsorted].
    set (l := JS.sort MemStorage.byCreatedAtDesc
                (fst (MemStorage.getWorkoutsByUserId owner s1))) in *.
    set (w0 := Spec.workoutOf id createdAt iw).
    assert (Hw0 : In w0 (Spec.workoutsOf s1 owner)).
    { unfold Spec.workoutsOf. apply filter_In. split.
      - apply values_set_In.
      - cbn. apply String.eqb_refl. }
    assert (Hall : forall w, In w (Spec.workoutsOf s1 owner) ->
                     Spec.dayOf tz (Workout.createdAt w)
                     <= Spec.dayOf tz now).
    { intros w Hw. unfold Spec.workoutsOf in Hw. apply filter_In in Hw.
      destruct Hw as [Hin Hown]. cbn in Hin.
      apply In_values_set in Hin. destruct Hin as [->|Hin].
      - cbn. lia.
      - apply Hpast. unfold Spec.workoutsOf. apply filter_In. auto. }
    destruct l as [|h l'] eqn:El.
    - apply (Permutation_in _ Hperm) in Hw0. destruct Hw0.
    - assert (Hh : In h (Spec.workoutsOf s1 owner))
        by (apply (Permutation_in _ (Permutation_sym Hperm)); now left).
      pose proof (newestFirst_head Workout.createdAt h l' w0 Hsorted
                    (Permutation_in _ Hperm Hw0)) as Hge.
      pose proof (Hzone _ _ Hge) as Hday. cbn in Hday.
      specialize (Hall h Hh).
      cbn [MemStorage.streakLoop].
      rewrite daysDiff_same_day by lia.
      cbn [Z.eqb].
      destruct (streakLoop_bounds tz (MemStorage.startOfDay tz now) l'
                  (0 + 1) (0 + 1)) as [Hr _].
      cbn zeta in Hr. lia. }
  eexists. exists (Spec.computedStreak tz s1 owner now).
  eexists. split; [reflexivity|]. split; [reflexivity|].
  split; [exact Hcs|]. split; [reflexivity|]. lia.
Qed.

Lemma workout_today_starts_a_streak_witness :
  exists u' cs longest,
    JS.get "u2"
      (MemStorage.users
         (snd (MemStorage.createWorkout TimeZone.utc "w9" (Example.at_ 12 7)
                 (Example.at_ 12 8) (Example.cardio "u2")
                 Example.twoUsers))) = Some u' /\
    User.currentStreak u' = Some cs /\ 1 <= cs /\
    User.longestStreak u' = Some longest /\ 1 <= longest.
Proof.
  destruct (JS.get "u2" (MemStorage.users Example.twoUsers))
    as [u|] eqn:Hu; [|discriminate Hu].
  apply (workout_today_starts_a_streak TimeZone.utc Example.twoUsers "w9"
           (Example.at_ 12 7) (Example.at_ 12 8) (Example.cardio "u2")
           u (dayOf_mono 0) Hu).
  - vm_compute. reflexivity.
  - intros w Hw. vm_compute in Hw. destruct Hw as [<-|[]].
    vm_compute. discriminate.
Defined.

(** X8: the streak update is idempotent: run twice at the same instant it
    leaves the store that one run leaves. *)
Theorem updateUserStreak_idempotent
    (tz : TimeZone.t) (s : MemStorage.t) (userId : string) (now : Z) :
  let once := snd (MemStorage.updateUserStreak tz userId now s) in
  snd (MemStorage.updateUserStreak tz userId now once) = once.
Proof.
  cbn zeta.
  destruct (JS.get userId (MemStorage.users s)) as [u|] eqn:Hu.
  - rewrite (updateUserStreak_found tz s userId now u Hu). cbn [snd].
    set (cs := Spec.computedStreak tz s userId now).
    set (u' := Spec.withStreak u cs
                 (Z.max (JS.orZero (User.longestStreak u)) cs)).
    set (s' := MemStorage.set_users (JS.set userId u') s).
    assert (Hu' : JS.get userId (MemStorage.users s') = Some u')
      by (cbn; apply get_set_same).
    rewrite (updateUserStreak_found tz s' userId now u' Hu'). cbn [snd].
    assert (Hcs : Spec.computedStreak tz s' userId now = cs) by reflexivity.
    rewrite Hcs. unfold s', MemStorage.set_users. cbn.
    rewrite set_set. f_equal. f_equal.
    unfold u', Spec.withStreak. cbn. f_equal. f_equal. lia.
  - rewrite (updateUserStreak_missing tz s userId now Hu). cbn [snd].
    now rewrite (updateUserStreak_missing tz s userId now Hu).
Qed.

(* ------------------------------------------------------------------ *)
(** ** What the dashboard answers *)

Lemma perm_filter {A} (p : A -> bool) (l l' : list A) :
  Permutation l l' -> Permutation (filter p l) (filter p l').
Proof.
  induction 1 as [|x l l' _ IH|x y l|l l' l'' _ IH1 _ IH2]; cbn.
  - constructor.
  - destruct (p x); auto.
  - destruct (p x), (p y); auto. apply perm_swap.
  - eapply perm_trans; eauto.
Qed.

Lemma weightProgressOf_total user latestMetrics l :
  exists wp, Routes.weightProgressOf user latestMetrics l = Some wp.
Proof.
  destruct user as [u|]; [|eexists; reflexivity].
  destruct ((2 <=? Z.of_nat (List.length l))
            && JS.truthy (User.currentWeight u))%bool eqn:E.
  - apply andb_prop in E. destruct E as [Hlen Ht].
    apply Z.leb_le in Hlen.
    destruct (User.currentWeight u) as [cw|] eqn:Hcw; [|discriminate Ht].
    destruct (weightProgressOf_some u cw latestMetrics l Hcw Ht ltac:(lia))
      as (o & _ & H).
    eexists. exact H.
  - exists 0%float. unfold Routes.weightProgressOf. now rewrite E.
Qed.

Lemma dashboardStats_fields tz reqUser now s :
  let user := JS.get reqUser (MemStorage.users s) in
  let ws := Spec.workoutsOf s reqUser in
  let recent w := Routes.oneWeekAgo tz now <=? Workout.createdAt w in
  exists st,
    fst (Routes.dashboardStats tz reqUser now s) = Routes.json 200 st /\
    Routes.totalWorkouts st = Z.of_nat (List.length ws) /\
    Routes.weeklyWorkouts st = Z.of_nat (List.length (filter recent ws)) /\
    Routes.currentStreak st =
      JS.orZero (match user with
                 | Some u => User.currentStreak u | None => None end) /\
    Routes.longestStreak st =
      JS.orZero (match user with
                 | Some u => User.longestStreak u | None => None end) /\
    Routes.targetWeight st =
      match user with Some u => User.targetWeight u | None => None end /\
    Routes.currentWeight st =
      JS.or (Routes.weightOf
               (fst (MemStorage.getLatestHealthMetrics reqUser s)))
            (match user with
             | Some u => User.currentWeight u | None => None end).
Proof.
  cbn zeta.
  destruct (sort_desc_spec Workout.createdAt (Spec.workoutsOf s reqUser))
    as (Hperm & _ & _).
  fold MemStorage.byCreatedAtDesc in Hperm.
  unfold Routes.dashboardStats, MemStorage.bind, MemStorage.getUser,
    MemStorage.getWorkoutsByUserId, MemStorage.getLatestHealthMetrics,
    MemStorage.getHealthMetricsByUserId, MemStorage.bind, MemStorage.gets,
    MemStorage.ret.
  cbv beta iota zeta.
  match goal with
  | |- context [Routes.weightProgressOf ?a ?b ?c] =>
      destruct (weightProgressOf_total a b c) as [wp Hwp]; rewrite Hwp
  end.
  eexists. split; [reflexivity|]. cbn [fst Routes.totalWorkouts
    Routes.weeklyWorkouts Routes.currentStreak Routes.longestStreak
    Routes.targetWeight Routes.currentWeight].
  fold (Spec.workoutsOf s reqUser).
  split; [now rewrite <- (Permutation_length Hperm)|].
  split; [|auto].
  now rewrite <- (Permutation_length (perm_filter _ _ _ Hperm)).
Qed.

(** X9: [GET /api/dashboard/stats] always answers with status 200: the
    weight block never reads a record that is not there.  In the answer,
    [totalWorkouts] is the number of the user's stored workouts;
    [weeklyWorkouts] is the number of those created at or after
    [oneWeekAgo], the instant seven local calendar days before [now] at the
    same local time of day, and so lies between 0 and [totalWorkouts]; the
    two streaks are the stored values (0 for a missing user or a null
    field), not recomputed; [currentWeight] is the weight of the latest
    health-metrics record when that is neither null nor 0, else the
    profile's.  [oneWeekAgo] is 168 hours before [now] in a zone with a
    fixed offset, and 167 hours before noon of 9 March 2026 in New York. *)
Theorem dashboard_always_answers
    (tz : TimeZone.t) (s : MemStorage.t) (reqUser : string) (now : Z) :
  let user := JS.get reqUser (MemStorage.users s) in
  let ws := Spec.workoutsOf s reqUser in
  let recent w := Routes.oneWeekAgo tz now <=? Workout.createdAt w in
  (exists st,
    fst (Routes.dashboardStats tz reqUser now s) = Routes.json 200 st /\
    Routes.totalWorkouts st = Z.of_nat (List.length ws) /\
    Routes.weeklyWorkouts st = Z.of_nat (List.length (filter recent ws)) /\
    0 <= Routes.weeklyWorkouts st <= Routes.totalWorkouts st /\
    Routes.currentStreak st =
      JS.orZero (match user with
                 | Some u => User.currentStreak u | None => None end) /\
    Routes.longestStreak st =
      JS.orZero (match user with
                 | Some u => User.longestStreak u | None => None end) /\
    Routes.targetWeight st =
      match user with Some u => User.targetWeight u | None => None end /\
    Routes.currentWeight st =
      JS.or (Routes.weightOf
               (fst (MemStorage.getLatestHealthMetrics reqUser s)))
            (match user with
             | Some u => User.currentWeight u | None => None end))
  /\
  Routes.oneWeekAgo tz now =
    TimeZone.localTime tz now - 7 * 86400000
    - TimeZone.offsetOfLocal tz (TimeZone.localTime tz now - 7 * 86400000)
  /\
  (forall off,
      Routes.oneWeekAgo (TimeZone.fixed off) now = now - 168 * 3600000)
  /\
  Routes.oneWeekAgo Example.newYork (Example.at_ 20521 16) =
    Example.at_ 20521 16 - 167 * 3600000.
Proof.
  cbn zeta. split; [|split; [|split]].
  - destruct (dashboardStats_fields tz reqUser now s)
      as (st & H1 & H2 & H3 & H4 & H5 & H6 & H7).
    exists st. repeat (split; [assumption|]).
    split; [|auto]. rewrite H2, H3.
    pose proof (filter_length_le
                  (fun w => Routes.oneWeekAgo tz now <=? Workout.createdAt w)
                  (Spec.workoutsOf s reqUser)).
    lia.
  - reflexivity.
  - intros off. unfold Routes.oneWeekAgo, TimeZone.addDate, TimeZone.toUTC,
      TimeZone.localTime, TimeZone.fixed, TimeZone.msPerDay.
    cbn [TimeZone.offsetAt TimeZone.offsetOfLocal]. lia.
  - vm_compute. reflexivity.
Qed.

(** X10: after [createWorkout] under a new identifier for a stored owner,
    the owner's dashboard shows the streak just computed, the ratcheted
    longest streak, and one workout more than before. *)
Theorem dashboard_after_createWorkout
    (tz : TimeZone.t) (s : MemStorage.t) (id : string) (createdAt now later : Z)
    (iw : InsertWorkout.t) (u : User.t)
    (Hu : JS.get (InsertWorkout.userId iw) (MemStorage.users s) = Some u)
    (Hfresh : JS.get id (MemStorage.workouts s) = None) :
  let owner := InsertWorkout.userId iw in
  let s' := snd (MemStorage.createWorkout tz id createdAt now iw s) in
  let cs :=
    Spec.computedStreak tz (Spec.withWorkout s id createdAt iw) owner now in
  exists st,
    fst (Routes.dashboardStats tz owner later s') = Routes.json 200 st /\
    Routes.currentStreak st = cs /\
    Routes.longestStreak st = Z.max (JS.orZero (User.longestStreak u)) cs /\
    Routes.totalWorkouts st =
      Z.of_nat (List.length (Spec.workoutsOf s owner)) + 1.
Proof.
  cbn zeta.
  destruct (dashboardStats_fields tz (InsertWorkout.userId iw) later
              (snd (MemStorage.createWorkout tz id createdAt now iw s)))
    as (st & H1 & H2 & _ & H4 & H5 & _).
  exists st. split; [exact H1|].
  destruct (createWorkout_frame tz id createdAt now iw s) as (Hw & _).
  rewrite H2, H4, H5. clear H1 H2 H4 H5.
  unfold Spec.workoutsOf at 1. rewrite Hw.
  rewrite (createWorkout_found tz _ _ _ _ _ u Hu). cbn zeta.
  cbn [snd MemStorage.set_users MemStorage.users]. rewrite get_set_same.
  cbn [Spec.withStreak User.currentStreak User.longestStreak JS.orZero].
  split; [reflexivity|]. split; [reflexivity|].
  rewrite (values_set_fresh _ _ _ Hfresh), filter_snoc.
  cbn [Spec.workoutOf Workout.userId]. rewrite String.eqb_refl.
  rewrite length_app. cbn [List.length]. unfold Spec.workoutsOf. lia.
Qed.

Lemma dashboard_after_createWorkout_witness :
  exists st,
    fst (Routes.dashboardStats TimeZone.utc "u1" (Example.at_ 10 9)
           (snd (MemStorage.createWorkout TimeZone.utc "w9" (Example.at_ 10 7)
                   (Example.at_ 10 7) (Example.cardio "u1")
                   Example.twoUsers))) = Routes.json 200 st /\
    Routes.currentStreak st = 2 /\
    Routes.totalWorkouts st = 2.
Proof.
  destruct (JS.get "u1" (MemStorage.users Example.twoUsers))
    as [u|] eqn:Hu; [|discriminate Hu].
  destruct (dashboard_after_createWorkout TimeZone.utc Example.twoUsers "w9"
              (Example.at_ 10 7) (Example.at_ 10 7) (Example.at_ 10 9)
              (Example.cardio "u1") u Hu eq_refl)
    as (st & H1 & H2 & _ & H4).
  exists st. split; [exact H1|]. split.
  - rewrite H2. vm_compute. reflexivity.
  - rewrite H4. vm_compute. reflexivity.
Defined.

(* ------------------------------------------------------------------ *)
(** ** The latest health metrics *)

Lemma latest_metrics_spec s userId :
  match fst (MemStorage.getLatestHealthMetrics userId s) with
  | None => Spec.metricsOf s userId = []
  | Some m =>
      In m (Spec.metricsOf s userId) /\
      (forall m', In m' (Spec.metricsOf s userId) ->
                  HealthMetrics.createdAt m' <= HealthMetrics.createdAt m) /\
      hd_error
        (filter (fun m' => HealthMetrics.createdAt m'
                           =? HealthMetrics.createdAt m)
                (Spec.metricsOf s userId)) = Some m
  end.
Proof.
  destruct (sort_desc_spec HealthMetrics.createdAt (Spec.metricsOf s userId))
    as (Hperm & Hsorted & Hstable).
  fold MemStorage.metricsByCreatedAtDesc in Hperm, Hsorted, Hstable.
  unfold MemStorage.getLatestHealthMetrics, MemStorage.bind,
    MemStorage.getHealthMetricsByUserId, MemStorage.gets, MemStorage.ret.
  cbn [fst]. fold (Spec.metricsOf s userId).
  destruct (JS.sort MemStorage.metricsByCreatedAtDesc
              (Spec.metricsOf s userId)) as [|m l] eqn:El; cbn.
  - now apply Permutation_sym, Permutation_nil in Hperm.
  - split; [apply (Permutation_in _ (Permutation_sym Hperm)); now left|].
    split.
    + intros m' Hm'. apply (newestFirst_head _ _ _ _ Hsorted).
      now apply (Permutation_in _ Hperm).
    + rewrite <- Hstable. cbn. now rewrite Z.eqb_refl.
Qed.

(** X11: [getLatestHealthMetrics] answers [undefined] exactly when the user
    has no health-metrics record; otherwise it answers one of the user's
    records, none of the user's records is more recent, and among the
    records sharing its timestamp it is the one stored first. *)
Theorem latest_metrics_is_newest (s : MemStorage.t) (userId : string) :
  snd (MemStorage.getLatestHealthMetrics userId s) = s /\
  match fst (MemStorage.getLatestHealthMetrics userId s) with
  | None => Spec.metricsOf s userId = []
  | Some m =>
      In m (Spec.metricsOf s userId) /\
      (forall m', In m' (Spec.metricsOf s userId) ->
                  HealthMetrics.createdAt m' <= HealthMetrics.createdAt m) /\
      hd_error
        (filter (fun m' => HealthMetrics.createdAt m'
                           =? HealthMetrics.createdAt m)
                (Spec.metricsOf s userId)) = Some m
  end.
Proof.
  split; [reflexivity | apply latest_metrics_spec].
Qed.

Lemma createHealthMetrics_latest
    (s : MemStorage.t) (id : string) (now : Z) (im : InsertHealthMetrics.t)
    (Hfresh : JS.get id (MemStorage.healthMetrics s) = None)
    (Hnewer :
       forall m, In m (Spec.metricsOf s (InsertHealthMetrics.userId im)) ->
                 HealthMetrics.createdAt m < now) :
  let r := MemStorage.createHealthMetrics id now im s in
  fst (MemStorage.getLatestHealthMetrics (InsertHealthMetrics.userId im)
         (snd r)) = Some (fst r).
Proof.
  cbn zeta.
  set (r := MemStorage.createHealthMetrics id now im s).
  set (owner := InsertHealthMetrics.userId im) in *.
  assert (Hms : Spec.metricsOf (snd r) owner =
                Spec.metricsOf s owner ++ [fst r]).
  { unfold Spec.metricsOf. subst r.
    unfold MemStorage.createHealthMetrics, MemStorage.bind,
      MemStorage.modify, MemStorage.ret, MemStorage.set_healthMetrics.
    cbn [fst snd MemStorage.healthMetrics].
    rewrite (values_set_fresh _ _ _ Hfresh), filter_snoc.
    cbn [HealthMetrics.userId]. subst owner.
    now rewrite String.eqb_refl. }
  assert (Hts : HealthMetrics.createdAt (fst r) = now) by reflexivity.
  pose proof (latest_metrics_spec (snd r) owner) as H.
  destruct (fst (MemStorage.getLatestHealthMetrics owner (snd r)))
    as [m|].
  - destruct H as (Hin & Hmax & _). rewrite Hms in Hin, Hmax.
    apply in_app_or in Hin. destruct Hin as [Hin|[<-|[]]]; [|reflexivity].
    specialize (Hnewer m Hin).
    specialize (Hmax (fst r) ltac:(apply in_or_app; right; now left)).
    lia.
  - rewrite Hms in H. destruct (Spec.metricsOf s owner); discriminate H.
Qed.

(** X12: a health-metrics record created under a new identifier with a
    timestamp after all of the user's stored records is the one
    [getLatestHealthMetrics] answers next. *)
Theorem newer_metrics_become_latest
    (s : MemStorage.t) (id : string) (now : Z) (im : InsertHealthMetrics.t)
    (Hfresh : JS.get id (MemStorage.healthMetrics s) = None)
    (Hnewer :
       forall m, In m (Spec.metricsOf s (InsertHealthMetrics.userId im)) ->
                 HealthMetrics.createdAt m < now) :
  let r := MemStorage.createHealthMetrics id now im s in
  fst (MemStorage.getLatestHealthMetrics (InsertHealthMetrics.userId im)
         (snd r)) = Some (fst r).
Proof.
  exact (createHealthMetrics_latest s id now im Hfresh Hnewer).
Qed.

Lemma newer_metrics_become_latest_witness :
  fst (MemStorage.getLatestHealthMetrics "u1"
         (snd (MemStorage.createHealthMetrics "m9" (Example.at_ 10 8)
                 (Example.weighIn "u1" (Some 176%float))
                 Example.twoUsers))) =
  Some (fst (MemStorage.createHealthMetrics "m9" (Example.at_ 10 8)
               (Example.weighIn "u1" (Some 176%float)) Example.twoUsers)).
Proof.
  apply (newer_metrics_become_latest Example.twoUsers "m9"
           (Example.at_ 10 8) (Example.weighIn "u1" (Some 176%float))).
  - vm_compute. reflexivity.
  - intros m Hm. vm_compute in Hm. destruct Hm as [<-|[]].
    vm_compute. reflexivity.
Defined.

(* ------------------------------------------------------------------ *)
(** ** Ownership checks of the routes *)

(** The record stored under [id], if any, belongs to someone else. *)
Local Notation "'foreign' owner r reqUser" :=
  (match r with Some x => owner x <> reqUser | None => True end)
  (at level 10, owner at level 9, r at level 9, reqUser at level 9).

(** X13: a request for a workout or scheduled workout that is not stored,
    or is stored for another user, is answered 404 and changes nothing:
    this holds for reading and deleting a workout and for patching and
    deleting a scheduled workout. *)
Theorem foreign_records_are_not_found
    (s : MemStorage.t) (reqUser id : string)
    (body : PartialScheduledWorkout.t)
    (Hw : foreign Workout.userId (JS.get id (MemStorage.workouts s)) reqUser)
    (Hsw : foreign ScheduledWorkout.userId
             (JS.get id (MemStorage.scheduledWorkouts s)) reqUser) :
  Routes.getWorkoutRoute reqUser id s =
    (Routes.message 404 "Workout not found", s) /\
  Routes.deleteWorkoutRoute reqUser id s =
    (Routes.message 404 "Workout not found", s) /\
  Routes.patchScheduledWorkout reqUser id body s =
    (Routes.message 404 "Scheduled workout not found", s) /\
  Routes.deleteScheduledWorkoutRoute reqUser id s =
    (Routes.message 404 "Scheduled workout not found", s).
Proof.
  unfold Routes.getWorkoutRoute, Routes.deleteWorkoutRoute,
    Routes.patchScheduledWorkout, Routes.deleteScheduledWorkoutRoute,
    MemStorage.bind, MemStorage.getWorkout, MemStorage.getScheduledWorkout,
    MemStorage.gets, MemStorage.ret.
  destruct (JS.get id (MemStorage.workouts s)) as [w|];
    destruct (JS.get id (MemStorage.scheduledWorkouts s)) as [sw|];
    repeat match goal with
           | H : ?f ?x <> reqUser |- _ =>
               apply String.eqb_neq in H; rewrite H
           end;
    cbn; auto.
Qed.

Lemma foreign_records_are_not_found_witness :
  Routes.deleteWorkoutRoute "u1" "w2" Example.twoUsers =
    (Routes.message 404 "Workout not found", Example.twoUsers).
Proof.
  apply (foreign_records_are_not_found Example.twoUsers "u1" "w2"
           PartialScheduledWorkout.none).
  - vm_compute. discriminate.
  - vm_compute. exact I.
Defined.

(** X14: a request for the user's own workout: reading answers it with
    status 200 and changes nothing; deleting answers 204, after which the
    workout is no longer found, every other workout is found as before and
    the users are untouched (the maps of the store holding each key
    once). *)
Theorem own_workout_is_read_and_deleted
    (s : MemStorage.t) (reqUser id : string) (w : Workout.t)
    (Hwf : Spec.wellFormed s)
    (Hget : JS.get id (MemStorage.workouts s) = Some w)
    (Hown : Workout.userId w = reqUser) :
  Routes.getWorkoutRoute reqUser id s = (Routes.json 200 w, s) /\
  let r := Routes.deleteWorkoutRoute reqUser id s in
  fst r = Routes.sendStatus 204 /\
  fst (MemStorage.getWorkout id (snd r)) = None /\
  (forall other, other <> id ->
     fst (MemStorage.getWorkout other (snd r)) =
     fst (MemStorage.getWorkout other s)) /\
  (forall userId,
     incl (fst (MemStorage.getWorkoutsByUserId userId (snd r)))
          (fst (MemStorage.getWorkoutsByUserId userId s))) /\
  MemStorage.users (snd r) = MemStorage.users s.
Proof.
  destruct Hwf as (_ & Hwk & _).
  unfold Routes.getWorkoutRoute, Routes.deleteWorkoutRoute,
    MemStorage.bind, MemStorage.getWorkout, MemStorage.gets, MemStorage.ret,
    MemStorage.deleteWorkout.
  rewrite Hget, Hown, String.eqb_refl. cbn [negb].
  split; [reflexivity|]. cbn zeta.
  pose proof (delete_found id (MemStorage.workouts s)) as Hf.
  pose proof (get_delete_same id (MemStorage.workouts s) Hwk) as Hg.
  pose proof (fun o => @get_delete_other _ id o (MemStorage.workouts s))
    as Ho.
  pose proof (values_delete_incl id (MemStorage.workouts s)) as Hv.
  rewrite Hget in Hf.
  destruct (JS.delete id (MemStorage.workouts s)) as [b m].
  cbn in Hf, Hg, Ho, Hv. subst b. cbn.
  repeat split; auto.
  intros userId x Hx. apply sort_In in Hx. apply sort_In.
  apply filter_In in Hx. apply filter_In. destruct Hx. auto.
Qed.

Lemma own_workout_is_read_and_deleted_witness :
  Routes.getWorkoutRoute "u2" "w2" Example.twoUsers =
    (Routes.json 200
       (Spec.workoutOf "w2" (Example.at_ 10 7) (Example.cardio "u2")),
     Example.twoUsers).
Proof.
  apply (own_workout_is_read_and_deleted Example.twoUsers "u2" "w2"
           (Spec.workoutOf "w2" (Example.at_ 10 7) (Example.cardio "u2"))
           twoUsers_wellFormed).
  - vm_compute. reflexivity.
  - reflexivity.
Defined.

(** X17: the POST routes store the record for the requesting user whatever
    the body says: a parsed body yields status 201 with a record whose
    [userId] is the requester's and which is then found under its
    identifier; a body the schema rejects yields status 400 and changes
    nothing. *)
Theorem post_routes_force_the_owner
    (tz : TimeZone.t) (s : MemStorage.t) (reqUser id : string)
    (createdAt now : Z)
    (bw : InsertWorkout.t) (bm : InsertHealthMetrics.t)
    (bs : InsertScheduledWorkout.t) :
  (Routes.postWorkout tz reqUser None id createdAt now s =
     (Routes.message 400 "Invalid workout data", s) /\
   exists w,
     fst (Routes.postWorkout tz reqUser (Some bw) id createdAt now s) =
       Routes.json 201 w /\
     Workout.userId w = reqUser /\
     fst (MemStorage.getWorkout id
            (snd (Routes.postWorkout tz reqUser (Some bw) id createdAt now
                    s))) = Some w)
  /\
  (Routes.postHealthMetrics reqUser None id now s =
     (Routes.message 400 "Invalid health metrics data", s) /\
   exists m,
     fst (Routes.postHealthMetrics reqUser (Some bm) id now s) =
       Routes.json 201 m /\
     HealthMetrics.userId m = reqUser /\
     JS.get id
       (MemStorage.healthMetrics
          (snd (Routes.postHealthMetrics reqUser (Some bm) id now s)))
       = Some m)
  /\
  (Routes.postScheduledWorkout reqUser None id now s =
     (Routes.message 400 "Invalid scheduled workout data", s) /\
   exists w,
     fst (Routes.postScheduledWorkout reqUser (Some bs) id now s) =
       Routes.json 201 w /\
     ScheduledWorkout.userId w = reqUser /\
     ScheduledWorkout.completed w = Some 0 /\
     fst (MemStorage.getScheduledWorkout id
            (snd (Routes.postScheduledWorkout reqUser (Some bs) id now s)))
       = Some w).
Proof.
  split; [|split]; (split; [reflexivity|]).
  - unfold Routes.postWorkout, MemStorage.bind, MemStorage.ret.
    match goal with
    | |- context [MemStorage.createWorkout tz id createdAt now ?iw s] =>
        pose proof (createWorkout_frame tz id createdAt now iw s) as Hf;
        pose proof (createWorkout_unfold tz id createdAt now iw s) as Hu;
        destruct (MemStorage.createWorkout tz id createdAt now iw s)
          as [w s']
    end.
    cbn zeta in Hf. cbn [fst snd] in *. destruct Hf as (Hw & _).
    exists w. split; [reflexivity|].
    injection Hu as -> _. split; [reflexivity|].
    unfold MemStorage.getWorkout, MemStorage.gets. cbn [fst].
    rewrite Hw. apply get_set_same.
  - eexists. split; [reflexivity|]. split; [reflexivity|].
    cbn. apply get_set_same.
  - eexists. split; [reflexivity|]. split; [reflexivity|].
    split; [reflexivity|]. cbn. apply get_set_same.
Qed.

(* ------------------------------------------------------------------ *)
(** ** Partial updates *)


Lemma set_users_id s : MemStorage.set_users (fun _ => MemStorage.users s) s = s.
Proof. now destruct s. Qed.





(* ------------------------------------------------------------------ *)
(** ** Every reachable store is a store of maps *)

Section WellFormed.
Import MemStorage.
Variable tz : TimeZone.t.

Lemma wellFormed_set_users k v s :
  Spec.wellFormed s -> Spec.wellFormed (set_users (JS.set k v) s).
Proof.
  intros (H1 & H2 & H3 & H4). repeat split; auto.
  now apply uniqueKeys_set.
Qed.

Lemma wellFormed_set_workouts k v s :
  Spec.wellFormed s -> Spec.wellFormed (set_workouts (JS.set k v) s).
Proof.
  intros (H1 & H2 & H3 & H4). repeat split; auto.
  now apply uniqueKeys_set.
Qed.

Lemma wellFormed_updateUser id updates s :
  Spec.wellFormed s -> Spec.wellFormed (snd (updateUser id updates s)).
Proof.
  intros H. unfold updateUser, bind, gets, modify, ret.
  cbv beta iota zeta.
  destruct (JS.get id (users s)); cbn [snd]; auto.
  now apply wellFormed_set_users.
Qed.

Lemma wellFormed_createWorkout id createdAt now iw s :
  Spec.wellFormed s ->
  Spec.wellFormed (snd (createWorkout tz id createdAt now iw s)).
Proof.
  intros H.
  assert (H1 : Spec.wellFormed (Spec.withWorkout s id createdAt iw))
    by now apply wellFormed_set_workouts.
  destruct (JS.get (InsertWorkout.userId iw) (users s)) as [u|] eqn:Hu.
  - rewrite (createWorkout_found tz _ _ _ _ _ u Hu). cbn zeta. cbn [snd].
    now apply wellFormed_set_users.
  - now rewrite (createWorkout_missing tz _ _ _ _ _ Hu).
Qed.

Lemma wellFormed_exec op s :
  Spec.wellFormed s -> Spec.wellFormed (Trace.exec tz op s).
Proof.
  intros H. destruct op; cbn [Trace.exec].
  - now apply wellFormed_set_users.
  - now apply wellFormed_updateUser.
  - unfold Routes.patchProfile, bind, ret.
    pose proof (wellFormed_updateUser reqUser body s H) as H'.
    now destruct (updateUser reqUser body s).
  - now apply wellFormed_createWorkout.
  - destruct body as [b|]; [|exact H].
    unfold Routes.postWorkout, bind, ret.
    match goal with
    | |- context [createWorkout tz id createdAt now ?iw s] =>
        pose proof (wellFormed_createWorkout id createdAt now iw s H) as H';
        destruct (createWorkout tz id createdAt now iw s)
    end.
    exact H'.
  - unfold deleteWorkout.
    pose proof (uniqueKeys_delete id (workouts s)) as Hd.
    destruct H as (H1 & H2 & H3 & H4).
    destruct (JS.delete id (workouts s)). repeat split; auto.
  - unfold Routes.deleteWorkoutRoute, bind, getWorkout, gets, ret,
      deleteWorkout.
    destruct (JS.get id (workouts s)); [|exact H].
    destruct (negb _); [exact H|].
    pose proof (uniqueKeys_delete id (workouts s)) as Hd.
    destruct H as (H1 & H2 & H3 & H4).
    destruct (JS.delete id (workouts s)) as [[] m];
      repeat split; auto; now apply Hd.
  - destruct H as (H1 & H2 & H3 & H4). repeat split; auto.
    now apply uniqueKeys_set.
  - destruct H as (H1 & H2 & H3 & H4). repeat split; auto.
    now apply uniqueKeys_set.
  - unfold deleteScheduledWorkout.
    pose proof (uniqueKeys_delete id (scheduledWorkouts s)) as Hd.
    destruct H as (H1 & H2 & H3 & H4).
    destruct (JS.delete id (scheduledWorkouts s)). repeat split; auto.
  - now rewrite dashboardStats_store.
Qed.

Lemma wellFormed_run ops :
  forall s, Spec.wellFormed s -> Spec.wellFormed (Trace.run tz ops s).
Proof.
  unfold Trace.run. induction ops as [|op ops IH]; intros s H; cbn; auto.
  apply IH. now apply wellFormed_exec.
Qed.

Lemma wellFormed_new : Spec.wellFormed MemStorage.new.
Proof. repeat split; constructor. Qed.
End WellFormed.

(* ------------------------------------------------------------------ *)
(** ** More on the dashboard and the streak *)

(** X18: after a weigh-in created under a new identifier, later than all of
    the user's stored records and with a weight that is neither null nor 0,
    the dashboard's [currentWeight] is that weight, whatever the profile
    says. *)
Theorem dashboard_shows_the_new_weight
    (tz : TimeZone.t) (s : MemStorage.t) (id : string) (now later : Z)
    (im : InsertHealthMetrics.t) (w : float)
    (Hfresh : JS.get id (MemStorage.healthMetrics s) = None)
    (Hnewer :
       forall m, In m (Spec.metricsOf s (InsertHealthMetrics.userId im)) ->
                 HealthMetrics.createdAt m < now)
    (Hweight : InsertHealthMetrics.weight im = Some w)
    (Htruthy : JS.truthy (Some w) = true) :
  exists st,
    fst (Routes.dashboardStats tz (InsertHealthMetrics.userId im) later
           (snd (MemStorage.createHealthMetrics id now im s)))
      = Routes.json 200 st /\
    Routes.currentWeight st = Some w.
Proof.
  destruct (dashboardStats_fields tz (InsertHealthMetrics.userId im) later
              (snd (MemStorage.createHealthMetrics id now im s)))
    as (st & H1 & _ & _ & _ & _ & _ & H7).
  exists st. split; [exact H1|]. rewrite H7.
  rewrite (createHealthMetrics_latest s id now im Hfresh Hnewer).
  cbn [fst MemStorage.createHealthMetrics MemStorage.bind MemStorage.modify
       MemStorage.ret Routes.weightOf HealthMetrics.weight].
  rewrite Hweight. unfold JS.or. now rewrite Htruthy.
Qed.

Lemma dashboard_shows_the_new_weight_witness :
  exists st,
    fst (Routes.dashboardStats TimeZone.utc "u1" (Example.at_ 10 9)
           (snd (MemStorage.createHealthMetrics "m9" (Example.at_ 10 8)
                   (Example.weighIn "u1" (Some 176%float))
                   Example.twoUsers))) = Routes.json 200 st /\
    Routes.currentWeight st = Some 176%float.
Proof.
  apply (dashboard_shows_the_new_weight TimeZone.utc Example.twoUsers "m9"
           (Example.at_ 10 8) (Example.at_ 10 9)
           (Example.weighIn "u1" (Some 176%float)) 176%float).
  - vm_compute. reflexivity.
  - intros m Hm. vm_compute in Hm. destruct Hm as [<-|[]].
    vm_compute. reflexivity.
  - reflexivity.
  - vm_compute. reflexivity.
Defined.

Lemma sort_sorted_id {A} (cmp : A -> A -> Z) (l : list A) :
  StronglySorted (fun x y => cmp x y <= 0) l -> JS.sort cmp l = l.
Proof.
  induction 1 as [|x l Hs IH Hall]; cbn; [reflexivity|].
  fold (JS.sort cmp l). rewrite IH.
  destruct l as [|y l]; cbn; [reflexivity|].
  apply Forall_inv in Hall.
  destruct (Z.leb_spec (cmp x y) 0); [reflexivity|lia].
Qed.

(** X19: sorting a listing again changes nothing, so the second sort in
    [updateUserStreak] is a no-op: the streak it computes is the loop run
    over [getWorkoutsByUserId] as returned. *)
Theorem resorting_a_listing_is_a_noop
    (tz : TimeZone.t) (s : MemStorage.t) (userId : string) (now : Z) :
  let listing := fst (MemStorage.getWorkoutsByUserId userId s) in
  JS.sort MemStorage.byCreatedAtDesc listing = listing /\
  Spec.computedStreak tz s userId now =
    MemStorage.streakLoop tz (MemStorage.startOfDay tz now) 0 listing 0.
Proof.
  cbn zeta.
  assert (H : JS.sort MemStorage.byCreatedAtDesc
                (fst (MemStorage.getWorkoutsByUserId userId s)) =
              fst (MemStorage.getWorkoutsByUserId userId s)).
  { apply sort_sorted_id.
    apply (sort_sorted MemStorage.byCreatedAtDesc);
      unfold MemStorage.byCreatedAtDesc; intros; lia. }
  split; [exact H|]. unfold Spec.computedStreak. now rewrite H.
Qed.

Section DuplicateToday.
Import MemStorage.
Variable tz : TimeZone.t.

(** On workouts listed by descending date, none after today and two of them
    dated today, the loop stops at 1. *)
Lemma streakLoop_two_today now l :
  StronglySorted
    (fun a b => Spec.dayOf tz (Workout.createdAt b)
                <= Spec.dayOf tz (Workout.createdAt a)) l ->
  Forall (fun w => Spec.dayOf tz (Workout.createdAt w) <= Spec.dayOf tz now)
         l ->
  (2 <= count_occ Z.eq_dec
          (map (fun w => Spec.dayOf tz (Workout.createdAt w)) l)
          (Spec.dayOf tz now))%nat ->
  streakLoop tz (startOfDay tz now) 0 l 0 = 1.
Proof.
  intros Hs Hlo Hcount.
  assert (Hhead : forall (l : list Workout.t),
             StronglySorted
               (fun a b => Spec.dayOf tz (Workout.createdAt b)
                           <= Spec.dayOf tz (Workout.createdAt a)) l ->
             Forall (fun w => Spec.dayOf tz (Workout.createdAt w)
                              <= Spec.dayOf tz now) l ->
             (1 <= count_occ Z.eq_dec
                     (map (fun w => Spec.dayOf tz (Workout.createdAt w)) l)
                     (Spec.dayOf tz now))%nat ->
             exists h t,
               l = h :: t /\
               Spec.dayOf tz (Workout.createdAt h) = Spec.dayOf tz now).
  { clear. intros l Hs Hlo Hc.
    destruct l as [|h t]; [cbn in Hc; lia|].
    exists h, t. split; [reflexivity|].
    assert (Hin : In (Spec.dayOf tz now)
                     (map (fun w => Spec.dayOf tz (Workout.createdAt w))
                          (h :: t)))
      by (apply (count_occ_In Z.eq_dec); lia).
    apply in_map_iff in Hin. destruct Hin as [x [Hx Hin]].
    apply Forall_inv in Hlo.
    destruct Hin as [<-|Hin]; [exact Hx|].
    apply StronglySorted_inv in Hs. destruct Hs as [_ Hall].
    rewrite Forall_forall in Hall. specialize (Hall x Hin). lia. }
  destruct (Hhead l Hs Hlo ltac:(lia)) as (h1 & t1 & -> & E1).
  cbn [map] in Hcount. rewrite count_occ_cons_eq in Hcount by exact E1.
  apply StronglySorted_inv in Hs. destruct Hs as [Hs1 _].
  apply Forall_inv_tail in Hlo.
  destruct (Hhead t1 Hs1 Hlo ltac:(lia)) as (h2 & t2 & -> & E2).
  cbn [streakLoop].
  rewrite (daysDiff_same_day tz now h1 E1), (daysDiff_same_day tz now h2 E2).
  reflexivity.
Qed.
End DuplicateToday.

(** X20: when two or more of the user's workouts are dated today and none
    is dated after today, [updateUserStreak] stores [currentStreak = 1],
    whatever the workouts of earlier days are: the second workout of today
    sits at index 1 with day offset 0 and ends the loop.  This holds in
    every zone whose local dates never go backwards, with or without
    daylight-saving time. *)
Theorem second_workout_today_caps_the_streak
    (tz : TimeZone.t) (s : MemStorage.t) (userId : string) (now : Z)
    (u : User.t)
    (Hzone : Spec.datesNeverGoBack tz)
    (Hu : JS.get userId (MemStorage.users s) = Some u)
    (Htwice : (2 <= Spec.workoutsOn tz (Spec.workoutsOf s userId)
                       (Spec.dayOf tz now))%nat)
    (Hpast : forall w, In w (Spec.workoutsOf s userId) ->
                       Spec.dayOf tz (Workout.createdAt w)
                       <= Spec.dayOf tz now) :
  option_map User.currentStreak
    (JS.get userId
       (MemStorage.users (snd (MemStorage.updateUserStreak tz userId now s))))
  = Some (Some 1).
Proof.
  rewrite (updateUserStreak_found tz s userId now u Hu).
  cbn [snd MemStorage.set_users MemStorage.users].
  rewrite get_set_same. cbn [option_map Spec.withStreak User.currentStreak].
  do 2 f_equal. unfold Spec.computedStreak.
  destruct (sortedWorkouts_spec s userId) as [Hperm Hsorted].
  set (l := JS.sort MemStorage.byCreatedAtDesc
              (fst (MemStorage.getWorkoutsByUserId userId s))) in *.
  apply streakLoop_two_today.
  - eapply StronglySorted_weaken; [|exact Hsorted].
    cbn beta. intros a b Hab. now apply Hzone.
  - apply Forall_forall. intros w Hw.
    apply (Permutation_in _ (Permutation_sym Hperm)) in Hw.
    now apply Hpast.
  - rewrite <- (proj1 (Permutation_count_occ Z.eq_dec _ _)
                  (Permutation_map
                     (fun w => Spec.dayOf tz (Workout.createdAt w)) Hperm)).
    exact Htwice.
Qed.

Lemma second_workout_today_caps_the_streak_witness :
  option_map User.currentStreak
    (JS.get "u1"
       (MemStorage.users
          (snd (MemStorage.updateUserStreak TimeZone.utc "u1"
                  (Example.at_ 10 20)
                  Example.twoDaysTwice)))) = Some (Some 1).
Proof.
  destruct (JS.get "u1" (MemStorage.users Example.twoDaysTwice))
    as [u|] eqn:Hu; [|discriminate Hu].
  apply (second_workout_today_caps_the_streak TimeZone.utc
           Example.twoDaysTwice "u1" (Example.at_ 10 20) u (dayOf_mono 0)
           Hu).
  - vm_compute. lia.
  - intros w Hw. vm_compute in Hw.
    destruct Hw as [<- | [<- | [<- | []]]]; vm_compute; discriminate.
Defined.



(* ------------------------------------------------------------------ *)
(** ** The streak across a daylight-saving change *)

(** C2: the loop divides the distance between two local midnights by 24
    hours and rounds down, so a 23-hour day counts as no day at all.  On a
    New York server, at 13:00 on Monday 9 March 2026 (the clocks went
    forward on Sunday 8 March, and the two midnights are 23 hours apart):
    with one workout on Sunday and one on Monday, none on Saturday, the
    stored [currentStreak] is 1, not 2, already when the Monday workout is
    inserted; with a workout on Sunday only, and none today, it is 1, not
    0; with workouts on Saturday and Monday and none on Sunday it is 2,
    not 1. *)
Theorem short_day_miscounts_the_streak :
  let tz := Example.newYork in
  let now := Example.at_ 20521 17 in
  let today := Spec.dayOf tz now in
  let on s day := Spec.workoutsOn tz (Spec.workoutsOf s "u1") day in
  let stored s :=
    option_map User.currentStreak
      (JS.get "u1"
         (MemStorage.users (snd (MemStorage.updateUserStreak tz "u1" now s))))
  in
  MemStorage.startOfDay tz now
    - MemStorage.startOfDay tz (Example.at_ 20520 16) = 23 * 3600000 /\
  (on Example.sundayAndMonday today = 1%nat /\
   on Example.sundayAndMonday (today - 1) = 1%nat /\
   on Example.sundayAndMonday (today - 2) = 0%nat /\
   option_map User.currentStreak
     (JS.get "u1" (MemStorage.users Example.sundayAndMonday))
     = Some (Some 1) /\
   stored Example.sundayAndMonday = Some (Some 1))
  /\
  (on Example.sundayOnly today = 0%nat /\
   stored Example.sundayOnly = Some (Some 1))
  /\
  (on Example.saturdayAndMonday today = 1%nat /\
   on Example.saturdayAndMonday (today - 1) = 0%nat /\
   on Example.saturdayAndMonday (today - 2) = 1%nat /\
   stored Example.saturdayAndMonday = Some (Some 2)).
Proof.
  cbn zeta. repeat split; vm_compute; reflexivity.
Qed.
